(** * MarketingPlatform API command-line client: request executor,
      pagination iterator, resource operations and top level.

    The development embeds [mp_api_cli.py] shallowly.  Python values are a
    small inductive type; the remote end, the module global [debug] and the
    history of requests sent, delays slept and lines printed make up an
    explicit [world]; every method of [MarketingPlatformClient] is a
    computation in a state-and-exception monad over that world.  *)

From Stdlib Require Import ZArith List String Ascii Bool Lia Decimal DecimalString.
From Stdlib Require Import Floats.SpecFloat.
Import ListNotations.
Local Open Scope string_scope.
Local Open Scope Z_scope.
Set Warnings "-register-all".

(** ** Python values *)

(** The values the program passes around: what [resp.json()] decodes, what
    goes into [params] and [json_body].  A [dict] keeps insertion order, as
    Python's does (the order is what [json.dumps] prints).  A [string] is
    read as a sequence of characters (code points below 256). *)
Inductive value : Type :=
| VNone
| VBool (b : bool)
| VInt (n : Z)
| VFloat (f : spec_float)
| VStr (s : string)
| VList (xs : list value)
| VDict (kvs : list (string * value)).

Definition dict : Type := list (string * value).

(** [bool(v)]. *)
Definition truthy (v : value) : bool :=
  match v with
  | VNone => false
  | VBool b => b
  | VInt n => negb (n =? 0)
  | VFloat (S754_zero _) => false
  | VFloat _ => true
  | VStr s => negb (s =? "")%string
  | VList [] => false
  | VList (_ :: _) => true
  | VDict [] => false
  | VDict (_ :: _) => true
  end.

(** [type(v).__name__], used in the interpreter's own error messages. *)
Definition type_name (v : value) : string :=
  match v with
  | VNone => "NoneType"
  | VBool _ => "bool"
  | VInt _ => "int"
  | VFloat _ => "float"
  | VStr _ => "str"
  | VList _ => "list"
  | VDict _ => "dict"
  end.

(** [d.get(k)] on the association list: the entry for [k], if any. *)
Fixpoint dict_get (k : string) (d : dict) : option value :=
  match d with
  | [] => None
  | (k', v) :: d' => if (k' =? k)%string then Some v else dict_get k d'
  end.

(** [d[k] = v]: replaces the entry in place, or appends a new one. *)
Fixpoint dict_set (k : string) (v : value) (d : dict) : dict :=
  match d with
  | [] => [(k, v)]
  | (k', v') :: d' =>
      if (k' =? k)%string then (k, v) :: d' else (k', v') :: dict_set k v d'
  end.

(** [str(n)] for an [int]. *)
Definition str_int (n : Z) : string := NilZero.string_of_int (Z.to_int n).

(** [str(b).lower()] for a [bool]. *)
Definition str_bool_lower (b : bool) : string := if b then "true" else "false".

(** The characters of a string as one-character strings, which is what
    [for c in s] produces. *)
Fixpoint chars (s : string) : list value :=
  match s with
  | EmptyString => []
  | String c s' => VStr (String c EmptyString) :: chars s'
  end.

(** ** Exceptions and the monad *)

(** The exception classes the program raises or lets through.  All but
    [SystemExit] derive from [Exception]. *)
Inductive exn : Type :=
| ValueError (msg : string)
| MPError (msg : string)
| NameError (msg : string)
| TypeError (msg : string)
| AttributeError (msg : string)
| JSONDecodeError (msg : string)
| RequestException (msg : string)
| SystemExit (code : Z).

(** [isinstance(e, Exception)]. *)
Definition is_Exception (e : exn) : bool :=
  match e with
  | SystemExit _ => false
  | _ => true
  end.

(** [str(e)]. *)
Definition str_exn (e : exn) : string :=
  match e with
  | ValueError m | MPError m | NameError m | TypeError m
  | AttributeError m | JSONDecodeError m | RequestException m => m
  | SystemExit c => str_int c
  end.

Inductive result (A : Type) : Type :=
| Ok (a : A)
| Raise (e : exn).
Arguments Ok {A} a.
Arguments Raise {A} e.

(** ** The world: HTTP session, clock, global flag, standard output *)

Record http_request : Type := mk_request {
  rq_method : string;
  rq_url : string;
  rq_params : option dict;
  rq_json : option dict;
  rq_timeout : Z;
  rq_headers : dict
}.

(** A response as [_request] reads it: [resp.status_code], [resp.text] and
    [resp.json()], where [None] stands for a body that does not decode
    ([json.JSONDecodeError]). *)
Record http_response : Type := mk_response {
  status_code : Z;
  text : string;
  json : option value
}.

(** What [session.request] does: return a response or raise. *)
Inductive http_outcome : Type :=
| Responded (r : http_response)
| Failed (e : exn).

(** One [print] call.  The text of [repr] and [json.dumps] is left to the
    interpreter: the event records their argument. *)
Inductive output : Type :=
| Line (s : string)
| LineRepr (prefix : string) (d : dict)
| LineJson (prefix : string) (v : value) (ensure_ascii : bool).

(** What the process does to the outside, in the order it does it: a call
    of [session.request], of [time.sleep], of [print]. *)
Inductive event : Type :=
| Sent (rq : http_request)
| Slept (d : Z)
| Printed (o : output).

(** [debug] is a module global that only [main] binds: [None] is the unbound
    name.  [transport n rq] is the remote end's answer to the [n]-th request
    of the process (counting from 0).  [trace] is the history of the
    process. *)
Record world : Type := mk_world {
  debug : option bool;
  transport : nat -> http_request -> http_outcome;
  trace : list event
}.

Fixpoint sent_in (es : list event) : list http_request :=
  match es with
  | [] => []
  | Sent rq :: es' => rq :: sent_in es'
  | _ :: es' => sent_in es'
  end.

Fixpoint slept_in (es : list event) : list Z :=
  match es with
  | [] => []
  | Slept d :: es' => d :: slept_in es'
  | _ :: es' => slept_in es'
  end.

Fixpoint printed_in (es : list event) : list output :=
  match es with
  | [] => []
  | Printed o :: es' => o :: printed_in es'
  | _ :: es' => printed_in es'
  end.

(** The requests sent, the delays slept and the lines printed so far. *)
Definition requests (w : world) : list http_request := sent_in (trace w).

Definition sleeps (w : world) : list Z := slept_in (trace w).

Definition stdout (w : world) : list output := printed_in (trace w).

(** The world after the events [es] have happened. *)
Definition record (es : list event) (w : world) : world :=
  mk_world (debug w) (transport w) (trace w ++ es)%list.

Definition M (A : Type) : Type := world -> result A * world.

Definition ret {A} (a : A) : M A := fun w => (Ok a, w).

Definition raise {A} (e : exn) : M A := fun w => (Raise e, w).

Definition bind {A B} (c : M A) (k : A -> M B) : M B :=
  fun w =>
    match c w with
    | (Ok a, w') => k a w'
    | (Raise e, w') => (Raise e, w')
    end.

Declare Scope py_scope.
Delimit Scope py_scope with py.
Notation "x <- c ;; k" := (bind c (fun x => k))
  (at level 61, c at next level, right associativity) : py_scope.
Notation "c ;; k" := (bind c (fun _ => k))
  (at level 61, right associativity) : py_scope.
Local Open Scope py_scope.

Definition set_debug (b : bool) : M unit :=
  fun w => (Ok tt, mk_world (Some b) (transport w) (trace w)).

(** Reading the global: [NameError] while it is unbound. *)
Definition read_debug : M bool :=
  fun w =>
    match debug w with
    | Some b => (Ok b, w)
    | None => (Raise (NameError "name 'debug' is not defined"), w)
    end.

Definition print (o : output) : M unit := fun w => (Ok tt, record [Printed o] w).

Definition time_sleep (d : Z) : M unit := fun w => (Ok tt, record [Slept d] w).

(** [session.request]: the answer is the remote end's to this request, the
    requests sent before being counted. *)
Definition session_request (rq : http_request) : M http_response :=
  fun w =>
    match transport w (List.length (requests w)) rq with
    | Responded r => (Ok r, record [Sent rq] w)
    | Failed e => (Raise e, record [Sent rq] w)
    end.

(** ** The client and the request executor *)

(** [s.rstrip("/")]. *)
Fixpoint rstrip_slash (s : string) : string :=
  match s with
  | EmptyString => EmptyString
  | String c s' =>
      match rstrip_slash s' with
      | EmptyString => if (c =? "/")%char then EmptyString else String c EmptyString
      | r => String c r
      end
  end.

Record MarketingPlatformClient : Type := mk_client {
  base_url : string;
  headers : dict;
  timeout : Z
}.

Definition opt_str_truthy (s : option string) : bool :=
  match s with
  | Some s => negb (s =? "")%string
  | None => false
  end.

Definition opt_str_value (s : option string) : value :=
  match s with
  | Some s => VStr s
  | None => VNone
  end.

(** [MarketingPlatformClient.__init__]. *)
Definition init_client (username token : option string) (base : string) (tmo : Z)
  : M MarketingPlatformClient :=
  if negb (opt_str_truthy username) || negb (opt_str_truthy token) then
    raise (ValueError "API username/token missing. Set MP_API_USERNAME and MP_API_TOKEN.")
  else
    ret (mk_client (rstrip_slash base)
           [("Apiusername", opt_str_value username);
            ("Apitoken", opt_str_value token);
            ("Content-Type", VStr "application/json");
            ("Accept", VStr "application/json")]
           tmo).

Definition opt_dict_truthy (d : option dict) : bool :=
  match d with
  | Some (_ :: _) => true
  | _ => false
  end.

(** The status codes that fail at once. *)
Definition terminal_codes : list Z := [400; 401; 403; 404; 409; 500].

Definition is_terminal (st : Z) : bool := existsb (Z.eqb st) terminal_codes.

(** The [for attempt in range(1, max_retries + 1)] loop of [_request], with
    [n] the number of attempts left.  The delays are floats in the source,
    starting from [1.0]; every value they take is an integer, kept here in
    [Z]. *)
Fixpoint attempts (n : nat) (rq : http_request) (max_retries backoff : Z) : M value :=
  match n with
  | O => raise (MPError ("Failed after " ++ str_int max_retries ++ " attempts: " ++ rq_url rq))
  | S n' =>
      resp <- session_request rq ;;
      if status_code resp =? 429 then
        time_sleep backoff ;;
        attempts n' rq max_retries (Z.min (backoff * 2) 30)
      else if (200 <=? status_code resp) && (status_code resp <? 300) then
        match json resp with
        | Some v => ret v
        | None => raise (MPError ("Non-JSON response from " ++ rq_url rq))
        end
      else if is_terminal (status_code resp) then
        raise (MPError (str_int (status_code resp) ++ " error from " ++ rq_url rq
                          ++ ": " ++ text resp))
      else
        time_sleep backoff ;;
        attempts n' rq max_retries (Z.min (backoff * 2) 30)
  end.

Definition _request (self : MarketingPlatformClient) (method path : string)
    (params json_body : option dict) (max_retries : Z) : M value :=
  let url := base_url self ++ path in
  dbg <- read_debug ;;
  (if dbg then
     print (Line ("Request: " ++ method ++ " " ++ url)) ;;
     (if opt_dict_truthy params
      then print (LineRepr "Params: " (match params with Some d => d | None => [] end))
      else ret tt) ;;
     (if opt_dict_truthy json_body
      then print (LineJson "Body: "
                    (VDict (match json_body with Some d => d | None => [] end)) true)
      else ret tt)
   else ret tt) ;;
  attempts (Z.to_nat max_retries)
    (mk_request method url params json_body (timeout self) (headers self))
    max_retries 1.

(** The default of the [max_retries] keyword, which no caller overrides. *)
Definition default_max_retries : Z := 5.

Definition request (self : MarketingPlatformClient) (method path : string)
    (params json_body : option dict) : M value :=
  _request self method path params json_body default_max_retries.

(** ** Lists and the pagination iterator *)

(** [get_lists]: GET /Lists. *)
Definition get_lists (self : MarketingPlatformClient) (listid limit offset : Z) : M value :=
  let params := [("listid", VInt listid); ("limit", VInt limit); ("offset", VInt offset)] in
  request self "GET" "/Lists" (Some params) None.

(** [data.get(k)]: only a dict has the method; a missing key gives [None]. *)
Definition py_get (data : value) (k : string) : result value :=
  match data with
  | VDict kvs => Ok (match dict_get k kvs with Some v => v | None => VNone end)
  | _ => Raise (AttributeError ("'" ++ type_name data ++ "' object has no attribute 'get'"))
  end.

(** [for item in v]: the elements of a list, the keys of a dict, the
    characters of a string; nothing else here is iterable. *)
Definition py_iter (v : value) : result (list value) :=
  match v with
  | VList xs => Ok xs
  | VDict kvs => Ok (map (fun kv => VStr (fst kv)) kvs)
  | VStr s => Ok (chars s)
  | _ => Raise (TypeError ("'" ++ type_name v ++ "' object is not iterable"))
  end.

(** [len(v)]. *)
Definition py_len (v : value) : result nat :=
  match v with
  | VList xs => Ok (List.length xs)
  | VDict kvs => Ok (List.length kvs)
  | VStr s => Ok (String.length s)
  | _ => Raise (TypeError ("object of type '" ++ type_name v ++ "' has no len()"))
  end.

(** [x or []]. *)
Definition or_empty_list (v : value) : value := if truthy v then v else VList [].

(** The generator [iter_lists] driven to its end, as [list(...)] drives it:
    the items it yields in order, then how it stops ([None] for a normal
    end, [Some e] for an exception), and the world it leaves.  The source
    loop is [while True], so the recursion is bounded by [fuel]; the result
    is [None] when the fuel runs out first. *)
Fixpoint iter_lists_from (fuel : nat) (self : MarketingPlatformClient)
    (listid page_size offset : Z) (w : world)
  : option (list value * option exn * world) :=
  match fuel with
  | O => None
  | S fuel' =>
      match get_lists self listid page_size offset w with
      | (Raise e, w1) => Some ([], Some e, w1)
      | (Ok data, w1) =>
          match py_get data "data" with
          | Raise e => Some ([], Some e, w1)
          | Ok got =>
              let items := or_empty_list got in
              if negb (truthy items) then Some ([], None, w1)
              else
                match py_iter items with
                | Raise e => Some ([], Some e, w1)
                | Ok xs =>
                    match py_len items with
                    | Raise e => Some (xs, Some e, w1)
                    | Ok n =>
                        if Z.of_nat n <? page_size then Some (xs, None, w1)
                        else
                          match iter_lists_from fuel' self listid page_size
                                  (offset + page_size) w1 with
                          | None => None
                          | Some (ys, fin, w2) => Some ((xs ++ ys)%list, fin, w2)
                          end
                    end
                end
          end
      end
  end.

Definition iter_lists (fuel : nat) (self : MarketingPlatformClient)
    (listid page_size : Z) (w : world) : option (list value * option exn * world) :=
  iter_lists_from fuel self listid page_size 0 w.

(** [create_list]: POST /Lists, the keyword arguments being the body. *)
Definition create_list (self : MarketingPlatformClient) (fields : dict) : M value :=
  request self "POST" "/Lists" None (Some fields).

(** ** Stats *)

Definition get_opens (self : MarketingPlatformClient) (statid : Z) : M value :=
  request self "GET" "/Stats/GetOpens" (Some [("statid", VInt statid)]) None.

Definition get_clicks (self : MarketingPlatformClient) (statid : Z)
    (count_only unique_only : bool) : M value :=
  let params := [("statid", VInt statid);
                 ("count_only", VStr (str_bool_lower count_only));
                 ("unique_only", VStr (str_bool_lower unique_only))] in
  request self "GET" "/Stats/GetClicks" (Some params) None.

Definition is_none (v : value) : bool :=
  match v with
  | VNone => true
  | _ => false
  end.

Definition get_unsubscribes_by_list (self : MarketingPlatformClient) (listid : Z)
    (count_only : bool) (search_type : option string)
    (search_start_date search_end_date : value) (limit offset : Z) : M value :=
  if listid =? 0 then raise (ValueError "listid is required")
  else
    let params := [("listid", VInt listid);
                   ("count_only", VStr (str_bool_lower count_only));
                   ("limit", VInt limit);
                   ("offset", VInt offset)] in
    let params := if opt_str_truthy search_type
                  then dict_set "search_type" (opt_str_value search_type) params
                  else params in
    let params := if negb (is_none search_start_date)
                  then dict_set "search_start_date" search_start_date params
                  else params in
    let params := if negb (is_none search_end_date)
                  then dict_set "search_end_date" search_end_date params
                  else params in
    request self "GET" "/Stats/GetUnsubscribesByList" (Some params) None.

(** ** Send *)

Definition send_newsletter (self : MarketingPlatformClient) (newsletterid : Z) : M value :=
  request self "POST" "/Send/SendNewsletter" None (Some [("newsletterid", VInt newsletterid)]).

Definition schedule_send_newsletter_to_list (self : MarketingPlatformClient)
    (newsletterid listid : Z) (send_time_ts : option Z) : M value :=
  let payload := [("newsletterid", VInt newsletterid); ("listid", VInt listid)] in
  let payload := match send_time_ts with
                 | Some ts => dict_set "send_time" (VInt ts) payload
                 | None => payload
                 end in
  request self "POST" "/Send/ScheduleSendNewsletterToList" None (Some payload).

(** ** Profiles *)

Definition add_profile_to_list (self : MarketingPlatformClient) (listid : Z)
    (email_address mobile_number mobile_prefix : option string)
    (data_fields : option (list value))
    (confirmed mobile_confirmed add_to_autoresponders : bool) : M value :=
  if listid =? 0 then raise (ValueError "listid is required")
  else if negb (opt_str_truthy email_address)
          && negb (opt_str_truthy mobile_number && opt_str_truthy mobile_prefix)
  then raise (ValueError "Provide email_address OR mobile_number+mobile_prefix")
  else
    let payload := [("listid", VInt listid);
                    ("data_fields",
                     match data_fields with
                     | Some (x :: xs) => VList (x :: xs)
                     | _ => VList []
                     end);
                    ("confirmed", VBool confirmed);
                    ("mobile_confirmed", VBool mobile_confirmed);
                    ("add_to_autoresponders", VBool add_to_autoresponders)] in
    let payload :=
      if opt_str_truthy email_address
      then dict_set "email_address" (opt_str_value email_address) payload
      else dict_set "mobile_prefix" (opt_str_value mobile_prefix)
             (dict_set "mobile_number" (opt_str_value mobile_number) payload) in
    request self "POST" "/Profiles" None (Some payload).

Definition update_profile (self : MarketingPlatformClient) (profileid : Z)
    (data_fields : list value) : M value :=
  if profileid =? 0 then raise (ValueError "profileid is required")
  else
    match data_fields with
    | [] => raise (ValueError "data_fields cannot be empty")
    | _ :: _ =>
        let payload := [("profileid", VInt profileid); ("data_fields", VList data_fields)] in
        request self "PUT" "/Profiles/UpdateProfile" None (Some payload)
    end.

Definition get_profiles_by_list (self : MarketingPlatformClient)
    (listid limit offset : Z) : M value :=
  let params := [("listid", VInt listid); ("limit", VInt limit); ("offset", VInt offset)] in
  request self "GET" "/Profiles/GetProfilesByList" (Some params) None.

Definition get_profiles_from_segment (self : MarketingPlatformClient)
    (segmentid limit offset : Z) : M value :=
  let params := [("segmentid", VInt segmentid); ("limit", VInt limit); ("offset", VInt offset)] in
  request self "GET" "/Profiles/GetProfilesFromSegment" (Some params) None.

(** ** Segments *)

Definition get_segments (self : MarketingPlatformClient) (segmentid : Z)
    (listid : option Z) (limit offset : Z) : M value :=
  let params := [("segmentid", VInt segmentid); ("limit", VInt limit); ("offset", VInt offset)] in
  let params := match listid with
                | Some l => dict_set "listid" (VInt l) params
                | None => params
                end in
  request self "GET" "/Segments" (Some params) None.

Definition create_segment (self : MarketingPlatformClient) (name : string)
    (rules : value) (connector : string) : M value :=
  if (name =? "")%string then raise (ValueError "name is required")
  else if negb (truthy rules) then raise (ValueError "rules are required")
  else
    let payload := [("name", VStr name); ("rules", rules); ("connector", VStr connector)] in
    request self "POST" "/Segments" None (Some payload).

Definition edit_segment (self : MarketingPlatformClient) (segmentid : Z) (name : string)
    (rules : value) (connector : string) : M value :=
  if segmentid =? 0 then raise (ValueError "segmentid is required")
  else
    let payload := [("segmentid", VInt segmentid); ("name", VStr name);
                    ("rules", rules); ("connector", VStr connector)] in
    request self "PUT" "/Segments" None (Some payload).

Definition delete_segment (self : MarketingPlatformClient) (segmentid : Z) : M value :=
  if segmentid =? 0 then raise (ValueError "segmentid is required")
  else request self "DELETE" "/Segments" (Some [("segmentid", VInt segmentid)]) None.

(** ** Data fields *)

Definition load_data_fields (self : MarketingPlatformClient) (fieldid : option Z)
    (load_lists : bool) (limit offset : Z) : M value :=
  let params := [("fieldid", match fieldid with Some f => VInt f | None => VStr "" end);
                 ("load_lists", VStr (str_bool_lower load_lists));
                 ("limit", VInt limit);
                 ("offset", VInt offset)] in
  request self "GET" "/DataFields" (Some params) None.

(** [settings] is what [json.loads] gave, or [None]. *)
Definition create_data_field (self : MarketingPlatformClient) (name field_type : string)
    (default_value : option string) (settings : value) : M value :=
  if (name =? "")%string || (field_type =? "")%string
  then raise (ValueError "name and field_type are required")
  else
    let payload := [("name", VStr name); ("field_type", VStr field_type)] in
    let payload := match default_value with
                   | Some d => dict_set "default_value" (VStr d) payload
                   | None => payload
                   end in
    let payload := if negb (is_none settings)
                   then dict_set "settings" settings payload
                   else payload in
    request self "POST" "/DataFields" None (Some payload).

Definition update_data_field (self : MarketingPlatformClient) (fieldid : option Z)
    (name default_value : option string) (settings : value) : M value :=
  if match fieldid with None => true | Some _ => false end && negb (opt_str_truthy name)
  then raise (ValueError "Provide fieldid or name")
  else
    let payload : dict := [] in
    let payload := match fieldid with
                   | Some f => dict_set "fieldid" (VInt f) payload
                   | None => payload
                   end in
    let payload := if opt_str_truthy name
                   then dict_set "name" (opt_str_value name) payload
                   else payload in
    let payload := match default_value with
                   | Some d => dict_set "default_value" (VStr d) payload
                   | None => payload
                   end in
    let payload := if negb (is_none settings)
                   then dict_set "settings" settings payload
                   else payload in
    request self "PUT" "/DataFields" None (Some payload).

Definition delete_data_field (self : MarketingPlatformClient) (fieldid : Z) : M value :=
  if fieldid =? 0 then raise (ValueError "fieldid is required")
  else request self "DELETE" "/DataFields" (Some [("fieldid", VInt fieldid)]) None.

(** ** Data fields linked to lists *)

Definition is_nil {A} (l : list A) : bool :=
  match l with
  | [] => true
  | _ :: _ => false
  end.

Definition lists_add_data_fields (self : MarketingPlatformClient) (listid : Z)
    (field_ids : list Z) : M value :=
  if (listid =? 0) || is_nil field_ids
  then raise (ValueError "listid and field_ids are required")
  else
    let payload := [("listid", VInt listid); ("data_fields", VList (map VInt field_ids))] in
    request self "POST" "/Lists/AddDataFieldsToList" None (Some payload).

Definition lists_remove_data_fields (self : MarketingPlatformClient) (listid : Z)
    (field_ids : list Z) : M value :=
  if (listid =? 0) || is_nil field_ids
  then raise (ValueError "listid and field_ids are required")
  else
    let payload := [("listid", VInt listid); ("data_fields", VList (map VInt field_ids))] in
    request self "POST" "/Lists/RemoveDataFieldsFromList" None (Some payload).

Definition lists_get_data_fields (self : MarketingPlatformClient) (listid : Z)
    (field_type : option string) (limit offset : Z) : M value :=
  let params := [("listid", VInt listid); ("limit", VInt limit); ("offset", VInt offset)] in
  let params := if opt_str_truthy field_type
                then dict_set "field_type" (opt_str_value field_type) params
                else params in
  request self "GET" "/Lists/GetDataFields" (Some params) None.

(** ** Profile data fields and unsubscribes *)

Definition profiles_load_profile_data_fields (self : MarketingPlatformClient)
    (profileid listid : option Z) (email mobile_number mobile_prefix : option string)
  : M value :=
  let params : dict := [] in
  let params := match profileid with
                | Some p => dict_set "profileid" (VInt p) params
                | None => params
                end in
  let params := match listid with
                | Some l => dict_set "listid" (VInt l) params
                | None => params
                end in
  let params := if opt_str_truthy email
                then dict_set "email_address" (opt_str_value email) params
                else params in
  let params := if opt_str_truthy mobile_number
                then dict_set "mobile_number" (opt_str_value mobile_number) params
                else params in
  let params := if opt_str_truthy mobile_prefix
                then dict_set "mobile_prefix" (opt_str_value mobile_prefix) params
                else params in
  request self "GET" "/Profiles/LoadProfileDataFields" (Some params) None.

Definition get_unsubscribed_profiles (self : MarketingPlatformClient) (listid : option Z)
    (count_only : bool) (search_type : option string)
    (search_start_date search_end_date : value) (limit offset : Z) : M value :=
  let params := [("count_only", VStr (str_bool_lower count_only));
                 ("limit", VInt limit);
                 ("offset", VInt offset)] in
  let params := match listid with
                | Some l => dict_set "listid" (VInt l) params
                | None => params
                end in
  let params := if opt_str_truthy search_type
                then dict_set "search_type" (opt_str_value search_type) params
                else params in
  let params := if negb (is_none search_start_date)
                then dict_set "search_start_date" search_start_date params
                else params in
  let params := if negb (is_none search_end_date)
                then dict_set "search_end_date" search_end_date params
                else params in
  request self "GET" "/Profiles/GetUnsubscribedProfiles" (Some params) None.

(** ** SMS-unsubscribed profiles *)

(** [c.lower()] on one character: A-Z, and the Latin-1 capitals. *)
Definition lower_char (c : ascii) : ascii :=
  let n := N_of_ascii c in
  if (((65 <=? n) && (n <=? 90)) || ((192 <=? n) && (n <=? 222) && negb (n =? 215)))%N
  then ascii_of_N (n + 32)
  else c.

(** [s.lower()]. *)
Fixpoint lower (s : string) : string :=
  match s with
  | EmptyString => EmptyString
  | String c s' => String (lower_char c) (lower s')
  end.

(** The set literal of the comparison types. *)
Definition sms_types : list string := ["on"; "before"; "after"].

(** [date is None or date == ""]. *)
Definition date_missing (date : value) : bool :=
  match date with
  | VNone => true
  | VStr s => (s =? "")%string
  | _ => false
  end.

(** [type] is a [str], so [t] is [type.lower()]. *)
Definition get_profiles_sms_unsubscribed (self : MarketingPlatformClient) (listid : Z)
    (date : value) (type : string) (limit offset : Z) : M value :=
  if listid =? 0 then raise (ValueError "listid is required")
  else if date_missing date then raise (ValueError "date is required")
  else
    let t := lower type in
    if negb (existsb (String.eqb t) sms_types)
    then raise (ValueError "type must be one of: on, before, after")
    else if limit <=? 0 then raise (ValueError "limit must be > 0")
    else
      let limit := if limit >? 1000 then 1000 else limit in
      let params := [("listid", VInt listid);
                     ("date", date);
                     ("type", VStr t);
                     ("limit", VInt limit);
                     ("offset", VInt offset)] in
      request self "GET" "/Profiles/GetProfilesSMSUnsubscribed" (Some params) None.

(** ** The command line *)

(** The namespace [parse_args] returns: one constructor per subcommand with
    the attributes [build_parser] declares for it ([type=int] gives a [Z],
    [store_true] a [bool], an option without default an [option]). *)
Inductive command : Type :=
| Lists (listid limit : Z)
| CreateList (name description : string)
    (sender_name sender_email reply_email company_name company_email
       company_address company_phone company_domain : option string)
| Opens (statid : Z)
| Clicks (statid : Z) (count_only unique_only : bool)
| SendNow (newsletterid : Z)
| ScheduleList (newsletterid listid : Z) (send_time_ts : option Z)
| PfAdd (listid : Z) (email_address mobile_number mobile_prefix : option string)
    (fields : option (list string))
    (unconfirmed sms_unsubscribed add_to_autoresponders : bool)
| PfUpdate (profileid : Z) (fields : option (list string))
| PfsByList (listid limit offset : Z)
| PfsFromSegment (segmentid limit offset : Z)
| Segments (segmentid : Z) (listid : option Z) (limit offset : Z)
| SegmentCreate (name rules_json : string)
| SegmentEdit (segmentid : Z) (name rules_json connector : string)
| SegmentDelete (segmentid : Z)
| DfLoad (fieldid : option Z) (load_lists : bool) (limit offset : Z)
| DfCreate (name field_type : string) (default settings_json : option string)
| DfUpdate (fieldid : option Z) (name default settings_json : option string)
| DfDelete (fieldid : Z)
| ListAddFields (listid : Z) (field_ids : list Z)
| ListRemoveFields (listid : Z) (field_ids : list Z)
| ListGetFields (listid : Z) (field_type : option string) (limit offset : Z)
| ProfileFields (profileid listid : option Z) (email mobile prefix : option string)
| UnsubsByList (listid : Z) (count_only : bool) (search_type : option string)
    (search_start_date search_end_date : option string) (limit offset : Z)
| UnsubsProfs (listid : option Z) (count_only : bool) (search_type : option string)
    (search_start_date search_end_date : option string) (limit offset : Z)
| SmsUnsubsProfs (listid : Z) (date type : string) (limit offset : Z).

Record args : Type := mk_args {
  args_debug : bool;
  cmd : command
}.

(** What surrounds the program: [sys.argv[1:]], the environment when the
    module is imported and after [load_dotenv()], and the two library
    functions whose working is not the program's: [argparse] reads the
    argument strings into a namespace, the choices not yet looked at (or
    prints and exits), [json_loads] decodes a string (or raises
    [JSONDecodeError]). *)
Record process : Type := mk_process {
  sys_argv_tail : list string;
  environ_at_import : string -> option string;
  environ : string -> option string;
  argparse : list string -> list output * result args;
  json_loads : string -> result value
}.

(** The module constant [MP_API_BASE]. *)
Definition MP_API_BASE (p : process) : string :=
  match environ_at_import p "MP_API_BASE" with
  | Some s => s
  | None => "https://api.mailmailmail.net/v2.0"
  end.

(** The [choices] lists of [build_parser]. *)
Definition field_type_choices : list string :=
  ["text"; "textarea"; "number"; "dropdown"; "checkbox"; "radiobutton"; "date"].

Definition search_type_choices : list string :=
  ["before"; "after"; "between"; "not"; "exact"; "exactly"].

Definition sms_type_choices : list string := ["on"; "before"; "after"].

Definition mem (s : string) (l : list string) : bool := existsb (String.eqb s) l.

Definition opt_mem (s : option string) (l : list string) : bool :=
  match s with
  | Some s => mem s l
  | None => true
  end.

(** The arguments declared with [choices] hold one of them. *)
Definition choices_ok (c : command) : bool :=
  match c with
  | DfCreate _ field_type _ _ => mem field_type field_type_choices
  | UnsubsByList _ _ search_type _ _ _ _ => opt_mem search_type search_type_choices
  | UnsubsProfs _ _ search_type _ _ _ _ => opt_mem search_type search_type_choices
  | SmsUnsubsProfs _ _ type _ _ => mem type sms_type_choices
  | _ => true
  end.

(** [build_parser().parse_args(argv)]: the parser refuses a value that is not
    among an argument's choices and ends the process with status 2. *)
Definition parse_args (p : process) (argv : list string) : list output * result args :=
  match argparse p argv with
  | (out, Ok a) => if choices_ok (cmd a) then (out, Ok a) else (out, Raise (SystemExit 2))
  | (out, Raise e) => (out, Raise e)
  end.

(** [item.split("=", 1)] when ["=" in item], else [None]. *)
Fixpoint split_first_eq (s : string) : option (string * string) :=
  match s with
  | EmptyString => None
  | String c s' =>
      if (c =? "=")%char then Some (EmptyString, s')
      else
        match split_first_eq s' with
        | Some (k, v) => Some (String c k, v)
        | None => None
        end
  end.

(** [c.isspace()]. *)
Definition is_space (c : ascii) : bool :=
  let n := N_of_ascii c in
  (((9 <=? n) && (n <=? 13)) || ((28 <=? n) && (n <=? 32)) || (n =? 133) || (n =? 160))%N.

Fixpoint lstrip (s : string) : string :=
  match s with
  | EmptyString => EmptyString
  | String c s' => if is_space c then lstrip s' else s
  end.

Fixpoint rstrip (s : string) : string :=
  match s with
  | EmptyString => EmptyString
  | String c s' =>
      match rstrip s' with
      | EmptyString => if is_space c then EmptyString else String c EmptyString
      | r => String c r
      end
  end.

(** [s.strip()]. *)
Definition strip (s : string) : string := rstrip (lstrip s).

Fixpoint parse_field_items (pairs : list string) : result (list value) :=
  match pairs with
  | [] => Ok []
  | item :: rest =>
      match split_first_eq item with
      | None => Raise (ValueError ("Invalid --field '" ++ item ++ "'. Use FIELDID=VALUE"))
      | Some (k, v) =>
          match parse_field_items rest with
          | Ok out => Ok (VDict [("fieldid", VStr (strip k)); ("field_value", VStr v)] :: out)
          | Raise e => Raise e
          end
      end
  end.

Definition _parse_fields (pairs : option (list string)) : result (list value) :=
  match pairs with
  | Some l => parse_field_items l
  | None => Ok []
  end.

Definition _maybe_json (p : process) (s : option string) : result value :=
  if opt_str_truthy s
  then json_loads p (match s with Some s => s | None => "" end)
  else Ok VNone.

Definition of_result {A} (r : result A) : M A := fun w => (r, w).

(** The keyword arguments of [create-list] that are not [None]. *)
Fixpoint drop_none (kvs : list (string * option string)) : dict :=
  match kvs with
  | [] => []
  | (k, Some v) :: kvs' => (k, VStr v) :: drop_none kvs'
  | (_, None) :: kvs' => drop_none kvs'
  end.

(** [list(client.iter_lists(...))]: the items, unless the generator raised. *)
Definition list_iter_lists (fuel : nat) (self : MarketingPlatformClient)
    (listid page_size : Z) (w : world) : option (result value * world) :=
  match iter_lists fuel self listid page_size w with
  | None => None
  | Some (items, None, w') => Some (Ok (VList items), w')
  | Some (_, Some e, w') => Some (Raise e, w')
  end.

(** The [if]/[elif] chain of [main] that computes [out]. *)
Definition dispatch (p : process) (fuel : nat) (client : MarketingPlatformClient)
    (c : command) (w : world) : option (result value * world) :=
  match c with
  | Lists listid limit => list_iter_lists fuel client listid limit w
  | CreateList name description sender_name sender_email reply_email company_name
      company_email company_address company_phone company_domain =>
      Some (create_list client
              (drop_none [("name", Some name); ("description", Some description);
                          ("sender_name", sender_name); ("sender_email", sender_email);
                          ("reply_email", reply_email); ("company_name", company_name);
                          ("company_email", company_email);
                          ("company_address", company_address);
                          ("company_phone", company_phone);
                          ("company_domain", company_domain)]) w)
  | Opens statid => Some (get_opens client statid w)
  | Clicks statid count_only unique_only =>
      Some (get_clicks client statid count_only unique_only w)
  | SendNow newsletterid => Some (send_newsletter client newsletterid w)
  | ScheduleList newsletterid listid send_time_ts =>
      Some (schedule_send_newsletter_to_list client newsletterid listid send_time_ts w)
  | PfAdd listid email_address mobile_number mobile_prefix fields
      unconfirmed sms_unsubscribed add_to_autoresponders =>
      Some ((fs <- of_result (_parse_fields fields) ;;
             add_profile_to_list client listid email_address mobile_number mobile_prefix
               (Some fs) (negb unconfirmed) (negb sms_unsubscribed) add_to_autoresponders) w)
  | PfUpdate profileid fields =>
      Some ((fs <- of_result (_parse_fields fields) ;; update_profile client profileid fs) w)
  | PfsByList listid limit offset => Some (get_profiles_by_list client listid limit offset w)
  | PfsFromSegment segmentid limit offset =>
      Some (get_profiles_from_segment client segmentid limit offset w)
  | Segments segmentid listid limit offset =>
      Some (get_segments client segmentid listid limit offset w)
  | SegmentCreate name rules_json =>
      Some ((rules <- of_result (json_loads p rules_json) ;;
             create_segment client name rules "and") w)
  | SegmentEdit segmentid name rules_json connector =>
      Some ((rules <- of_result (json_loads p rules_json) ;;
             edit_segment client segmentid name rules connector) w)
  | SegmentDelete segmentid => Some (delete_segment client segmentid w)
  | DfLoad fieldid load_lists limit offset =>
      Some (load_data_fields client fieldid load_lists limit offset w)
  | DfCreate name field_type default settings_json =>
      Some ((settings <- of_result (_maybe_json p settings_json) ;;
             create_data_field client name field_type default settings) w)
  | DfUpdate fieldid name default settings_json =>
      Some ((settings <- of_result (_maybe_json p settings_json) ;;
             update_data_field client fieldid name default settings) w)
  | DfDelete fieldid => Some (delete_data_field client fieldid w)
  | ListAddFields listid field_ids => Some (lists_add_data_fields client listid field_ids w)
  | ListRemoveFields listid field_ids =>
      Some (lists_remove_data_fields client listid field_ids w)
  | ListGetFields listid field_type limit offset =>
      Some (lists_get_data_fields client listid field_type limit offset w)
  | ProfileFields profileid listid email mobile prefix =>
      Some (profiles_load_profile_data_fields client profileid listid email mobile prefix w)
  | UnsubsByList listid count_only search_type search_start_date search_end_date
      limit offset =>
      Some (get_unsubscribes_by_list client listid count_only search_type
              (opt_str_value search_start_date) (opt_str_value search_end_date)
              limit offset w)
  | UnsubsProfs listid count_only search_type search_start_date search_end_date
      limit offset =>
      Some (get_unsubscribed_profiles client listid count_only search_type
              (opt_str_value search_start_date) (opt_str_value search_end_date)
              limit offset w)
  | SmsUnsubsProfs listid date type limit offset =>
      Some (get_profiles_sms_unsubscribed client listid (VStr date) type limit offset w)
  end.

(** What the parser itself printed. *)
Definition emit (outs : list output) (w : world) : world := record (map Printed outs) w.

(** [main(argv)].  [None] only when the pagination loop outlasts [fuel]. *)
Definition main (p : process) (argv : option (list string)) (fuel : nat) (w : world)
  : option (result unit * world) :=
  let argv := match argv with
              | Some (a :: l) => a :: l
              | _ => sys_argv_tail p
              end in
  match parse_args p argv with
  | (out, Raise e) => Some (Raise e, emit out w)
  | (out, Ok a) =>
      match (set_debug (args_debug a) ;;
             init_client (environ p "MP_API_USERNAME") (environ p "MP_API_TOKEN")
               (MP_API_BASE p) 30) (emit out w) with
      | (Raise e, w1) => Some (Raise e, w1)
      | (Ok client, w1) =>
          match dispatch p fuel client (cmd a) w1 with
          | None => None
          | Some (Raise e, w2) => Some (Raise e, w2)
          | Some (Ok out, w2) => Some (print (LineJson "" out false) w2)
          end
      end
  end.

(** The [if __name__ == "__main__"] block: the run of the script, giving the
    world it leaves and the exit status of the process.  A [SystemExit]
    passes the handler and sets the status; the handler returns normally, so
    does the script after it. *)
Definition script (p : process) (fuel : nat) (w : world) : option (world * Z) :=
  match main p None fuel w with
  | None => None
  | Some (Ok _, w') => Some (w', 0)
  | Some (Raise e, w') =>
      if is_Exception e
      then Some (snd (print (Line ("Error: " ++ str_exn e)) w'), 0)
      else match e with
           | SystemExit code => Some (w', code)
           | _ => Some (w', 1)
           end
  end.

(** ** Specification vocabulary *)

(** The request [_request] sends for given arguments. *)
Definition request_of (self : MarketingPlatformClient) (method path : string)
    (params json_body : option dict) : http_request :=
  mk_request method (base_url self ++ path) params json_body (timeout self) (headers self).

(** The lines [_request] prints before its loop when [debug] is [d]. *)
Definition debug_lines (d : bool) (rq : http_request) : list output :=
  if d then
    Line ("Request: " ++ rq_method rq ++ " " ++ rq_url rq)
    :: (if opt_dict_truthy (rq_params rq)
        then [LineRepr "Params: " (match rq_params rq with Some p => p | None => [] end)]
        else [])
    ++ (if opt_dict_truthy (rq_json rq)
        then [LineJson "Body: "
                (VDict (match rq_json rq with Some b => b | None => [] end)) true]
        else [])
  else [].

(** The delays of [n] successive retries when the first is [b]. *)
Fixpoint backoff_seq (n : nat) (b : Z) : list Z :=
  match n with
  | O => []
  | S n' => b :: backoff_seq n' (Z.min (b * 2) 30)
  end.

(** The delay before the retry number [i] (from 0): 1, 2, 4, 8, 16, then 30. *)
Definition delay (i : nat) : Z := Z.min (2 ^ Z.of_nat i) 30.

(** The history of [n] attempts that are each answered by a retry, the
    first delay being [b]: a request, a sleep, a request, a sleep, ... *)
Fixpoint retry_events (rq : http_request) (n : nat) (b : Z) : list event :=
  match n with
  | O => []
  | S n' => Sent rq :: Slept b :: retry_events rq n' (Z.min (b * 2) 30)
  end.

(** The request [get_lists] sends. *)
Definition lists_request (self : MarketingPlatformClient) (listid limit offset : Z)
  : http_request :=
  request_of self "GET" "/Lists"
    (Some [("listid", VInt listid); ("limit", VInt limit); ("offset", VInt offset)]) None.

(** A response that is a page of the listing: a success status and a JSON
    object whose ["data"] entry is the list [items]. *)
Definition page_response (r : http_response) (items : list value) : Prop :=
  200 <= status_code r < 300 /\
  exists kvs, json r = Some (VDict kvs) /\ dict_get "data" kvs = Some (VList items).

(** The item collection of a page is empty, missing or null. *)
Definition empty_page (kvs : dict) : Prop :=
  dict_get "data" kvs = Some (VList []) \/
  dict_get "data" kvs = None \/
  dict_get "data" kvs = Some VNone.

(** ** Concrete runs *)

(** A client as [main] builds it from a credential pair and the default
    base URL. *)
Definition demo_client : MarketingPlatformClient :=
  mk_client "https://api.mailmailmail.net/v2.0"
    [("Apiusername", VStr "alice"); ("Apitoken", VStr "s3cret");
     ("Content-Type", VStr "application/json"); ("Accept", VStr "application/json")]
    30.

(** A remote end that answers the requests of the process in turn with the
    given outcomes, whatever is asked, and refuses the connection after. *)
Definition scripted (answers : list http_outcome) : nat -> http_request -> http_outcome :=
  fun n _ => nth n answers (Failed (RequestException "Connection refused")).

(** The world after [main] has bound [debug] to [False], nothing sent yet. *)
Definition start_world (t : nat -> http_request -> http_outcome) : world :=
  mk_world (Some false) t [].

(** The double quote, to write response texts. *)
Definition dq : string := String (ascii_of_nat 34) EmptyString.

Definition too_many_requests : http_response :=
  mk_response 429 "Too Many Requests" None.

(** The two pages of the listing scenario: ids 1 and 2, then id 3. *)
Definition page_one_items : list value :=
  [VDict [("id", VInt 1)]; VDict [("id", VInt 2)]].

Definition page_two_items : list value := [VDict [("id", VInt 3)]].

Definition page_one : http_response :=
  mk_response 200
    ("{" ++ dq ++ "data" ++ dq ++ ":[{" ++ dq ++ "id" ++ dq ++ ":1},{"
         ++ dq ++ "id" ++ dq ++ ":2}]}")
    (Some (VDict [("data", VList page_one_items)])).

Definition page_two : http_response :=
  mk_response 200
    ("{" ++ dq ++ "data" ++ dq ++ ":[{" ++ dq ++ "id" ++ dq ++ ":3}]}")
    (Some (VDict [("data", VList page_two_items)])).

(** A success whose body is the empty JSON object. *)
Definition empty_object : http_response := mk_response 200 "{}" (Some (VDict [])).

Definition not_found : http_response := mk_response 404 "Not Found" None.

(** Five rate-limited answers, then a page. *)
Definition five_rate_limits_then_page : world :=
  start_world
    (scripted [Responded too_many_requests; Responded too_many_requests;
               Responded too_many_requests; Responded too_many_requests;
               Responded too_many_requests; Responded page_two]).

(** One success with an empty object, then nothing. *)
Definition answer_once : world := start_world (scripted [Responded empty_object]).

(** The world the interpreter starts the script in: [debug] not yet bound. *)
Definition boot_world (t : nat -> http_request -> http_outcome) : world :=
  mk_world None t [].

(** A process started without arguments of its own interest: [argparse]
    returns the namespace [a], the environment holds the given credentials,
    and [json_loads] refuses every string. *)
Definition demo_process (a : args) (username token : option string) : process :=
  mk_process []
    (fun _ => None)
    (fun k => if (k =? "MP_API_USERNAME")%string then username
              else if (k =? "MP_API_TOKEN")%string then token
              else None)
    (fun _ => ([], Ok a))
    (fun _ => Raise (JSONDecodeError "Expecting value: line 1 column 1 (char 0)")).

(** ** Further vocabulary *)

(** A status that makes [_request] sleep and try again: 429, or one that is
    neither a success nor one of the terminal codes. *)
Definition retryable (st : Z) : bool :=
  (st =? 429) || (negb ((200 <=? st) && (st <? 300)) && negb (is_terminal st)).

(** From now on the next [n] answers to [rq] all ask for a retry. *)
Definition answers_retryable (w : world) (rq : http_request) (n : nat) : Prop :=
  forall i, (i < n)%nat ->
    exists ri, transport w (List.length (requests w) + i)%nat rq = Responded ri
               /\ retryable (status_code ri) = true.

(** The delay in force after [n] retries when it was [b] before them. *)
Fixpoint backoff_after (n : nat) (b : Z) : Z :=
  match n with
  | O => b
  | S n' => backoff_after n' (Z.min (b * 2) 30)
  end.

(** The sum of a list of delays. *)
Definition total (l : list Z) : Z := fold_right Z.add 0 l.

(** ["=" in s]. *)
Fixpoint has_eq (s : string) : bool :=
  match s with
  | EmptyString => false
  | String c s' => (c =? "=")%char || has_eq s'
  end.

Definition starts_with_space (s : string) : bool :=
  match s with
  | EmptyString => false
  | String c _ => is_space c
  end.

Fixpoint ends_with_space (s : string) : bool :=
  match s with
  | EmptyString => false
  | String c EmptyString => is_space c
  | String _ s' => ends_with_space s'
  end.

(** [s.endswith("/")]. *)
Fixpoint ends_with_slash (s : string) : bool :=
  match s with
  | EmptyString => false
  | String c EmptyString => (c =? "/")%char
  | String _ s' => ends_with_slash s'
  end.

(** The string of [k] slashes. *)
Fixpoint slashes (k : nat) : string :=
  match k with
  | O => EmptyString
  | S k' => String "/" (slashes k')
  end.

(** The entry [_parse_fields] makes of a key and a value. *)
Definition field_entry (k v : string) : value :=
  VDict [("fieldid", VStr (strip k)); ("field_value", VStr v)].

(** The headers [__init__] sets on the session. *)
Definition session_headers (username token : option string) : dict :=
  [("Apiusername", opt_str_value username);
   ("Apitoken", opt_str_value token);
   ("Content-Type", VStr "application/json");
   ("Accept", VStr "application/json")].

(** The client [main] builds in the process [p]. *)
Definition main_client (p : process) : MarketingPlatformClient :=
  mk_client (rstrip_slash (MP_API_BASE p))
    (session_headers (environ p "MP_API_USERNAME") (environ p "MP_API_TOKEN")) 30.

(** The computation [c] sends one and the same request, five times at most. *)
Definition sends_at_most_five (c : M value) : Prop :=
  forall w, exists k rq,
    (k <= 5)%nat /\ requests (snd (c w)) = (requests w ++ repeat rq k)%list.

(** A remote end that gives the same answer to every request. *)
Definition always (r : http_response) : nat -> http_request -> http_outcome :=
  fun _ _ => Responded r.

Definition bad_gateway : http_response := mk_response 502 "Bad Gateway" None.

Definition html_page : http_response := mk_response 200 "<html></html>" None.

(** A success whose body is a JSON array, not an object. *)
Definition array_body : http_response := mk_response 200 "[]" (Some (VList [])).

(** A success whose ["data"] entry is a number. *)
Definition data_is_number : http_response :=
  mk_response 200 ("{" ++ dq ++ "data" ++ dq ++ ":7}") (Some (VDict [("data", VInt 7)])).

(** ** The helpers on small inputs *)

Example rstrip_slash_base : rstrip_slash "https://api.example.net/v2.0//" = "https://api.example.net/v2.0".
Proof. reflexivity. Qed.

Example rstrip_slash_inner : rstrip_slash "a/b" = "a/b".
Proof. reflexivity. Qed.

Example lower_mixed : lower "BeFore" = "before".
Proof. reflexivity. Qed.

Example str_int_status : str_int 404 = "404" /\ str_int 0 = "0" /\ str_int (-3) = "-3".
Proof. repeat split; reflexivity. Qed.

Example strip_both : strip "  7 " = "7".
Proof. reflexivity. Qed.

Example parse_fields_pairs :
  _parse_fields (Some ["2=Jane Doe"; " 7 =a=b"])
  = Ok [VDict [("fieldid", VStr "2"); ("field_value", VStr "Jane Doe")];
        VDict [("fieldid", VStr "7"); ("field_value", VStr "a=b")]].
Proof. reflexivity. Qed.

Example parse_fields_no_equals :
  _parse_fields (Some ["2=x"; "oops"])
  = Raise (ValueError "Invalid --field 'oops'. Use FIELDID=VALUE").
Proof. reflexivity. Qed.

Example dict_set_replaces_in_place :
  dict_set "b" (VInt 9) [("a", VInt 1); ("b", VInt 2); ("c", VInt 3)]
  = [("a", VInt 1); ("b", VInt 9); ("c", VInt 3)].
Proof. reflexivity. Qed.

Example backoff_first_eight : backoff_seq 8 1 = [1; 2; 4; 8; 16; 30; 30; 30].
Proof. reflexivity. Qed.

Example truthy_falsy_values :
  map truthy [VNone; VInt 0; VStr ""; VList []; VDict []; VFloat (S754_zero true);
              VInt 7; VStr "0"; VList [VNone]]
  = [false; false; false; false; false; false; true; true; true].
Proof. reflexivity. Qed.

(** ** The history of the process *)

Lemma sent_in_app (es1 es2 : list event) :
  sent_in (es1 ++ es2) = (sent_in es1 ++ sent_in es2)%list.
Proof.
  induction es1 as [|[rq|d|o] es1 IH]; cbn; rewrite ?IH; reflexivity.
Qed.

Lemma slept_in_app (es1 es2 : list event) :
  slept_in (es1 ++ es2) = (slept_in es1 ++ slept_in es2)%list.
Proof.
  induction es1 as [|[rq|d|o] es1 IH]; cbn; rewrite ?IH; reflexivity.
Qed.

Lemma printed_in_app (es1 es2 : list event) :
  printed_in (es1 ++ es2) = (printed_in es1 ++ printed_in es2)%list.
Proof.
  induction es1 as [|[rq|d|o] es1 IH]; cbn; rewrite ?IH; reflexivity.
Qed.

Lemma record_nil (w : world) : record [] w = w.
Proof. destruct w as [d t tr]. unfold record. cbn. rewrite app_nil_r. reflexivity. Qed.

Lemma record_record (es1 es2 : list event) (w : world) :
  record es2 (record es1 w) = record (es1 ++ es2) w.
Proof. unfold record. cbn. rewrite app_assoc. reflexivity. Qed.

Lemma requests_record (es : list event) (w : world) :
  requests (record es w) = (requests w ++ sent_in es)%list.
Proof. unfold requests, record. cbn. apply sent_in_app. Qed.

Lemma sleeps_record (es : list event) (w : world) :
  sleeps (record es w) = (sleeps w ++ slept_in es)%list.
Proof. unfold sleeps, record. cbn. apply slept_in_app. Qed.

Lemma stdout_record (es : list event) (w : world) :
  stdout (record es w) = (stdout w ++ printed_in es)%list.
Proof. unfold stdout, record. cbn. apply printed_in_app. Qed.

Lemma sent_in_printed (outs : list output) : sent_in (map Printed outs) = [].
Proof. induction outs as [|o outs IH]; [reflexivity | exact IH]. Qed.

Lemma slept_in_printed (outs : list output) : slept_in (map Printed outs) = [].
Proof. induction outs as [|o outs IH]; [reflexivity | exact IH]. Qed.

Lemma sent_in_retry_events (rq : http_request) (n : nat) :
  forall b, sent_in (retry_events rq n b) = repeat rq n.
Proof. induction n as [|n IH]; intros b; cbn; [|rewrite IH]; reflexivity. Qed.

Lemma slept_in_retry_events (rq : http_request) (n : nat) :
  forall b, slept_in (retry_events rq n b) = backoff_seq n b.
Proof. induction n as [|n IH]; intros b; cbn; [|rewrite IH]; reflexivity. Qed.

Lemma printed_in_retry_events (rq : http_request) (n : nat) :
  forall b, printed_in (retry_events rq n b) = [].
Proof. induction n as [|n IH]; intros b; cbn; [|rewrite IH]; reflexivity. Qed.

(** ** The request executor *)

Lemma delay_step (k : nat) : Z.min (delay k * 2) 30 = delay (S k).
Proof.
  unfold delay. rewrite Nat2Z.inj_succ, Z.pow_succ_r by lia.
  assert (0 < 2 ^ Z.of_nat k) by (apply Z.pow_pos_nonneg; lia). lia.
Qed.

Lemma backoff_seq_delay_from (n k : nat) :
  backoff_seq n (delay k) = map (fun i => delay (k + i)) (seq 0 n).
Proof.
  revert k; induction n as [|n IH]; intros k; [reflexivity|].
  cbn [backoff_seq seq map]. rewrite Nat.add_0_r. f_equal.
  rewrite delay_step, IH, <- seq_shift, map_map.
  apply map_ext; intros i. f_equal; lia.
Qed.

Lemma backoff_seq_delay (n : nat) : backoff_seq n 1 = map delay (seq 0 n).
Proof. exact (backoff_seq_delay_from n 0). Qed.

Lemma flat_map_after_map {A B C} (f : A -> B) (g : B -> list C) (l : list A) :
  flat_map g (map f l) = flat_map (fun x => g (f x)) l.
Proof. induction l as [|x l IH]; cbn; [|rewrite IH]; reflexivity. Qed.

Lemma retry_events_delay_from (rq : http_request) (n k : nat) :
  retry_events rq n (delay k)
  = flat_map (fun i => [Sent rq; Slept (delay (k + i))]) (seq 0 n).
Proof.
  revert k; induction n as [|n IH]; intros k; [reflexivity|].
  cbn [retry_events seq flat_map]. rewrite Nat.add_0_r.
  rewrite delay_step, IH, <- seq_shift, flat_map_after_map.
  change ([Sent rq; Slept (delay k)] ++ ?l)%list with (Sent rq :: Slept (delay k) :: l).
  do 2 f_equal. apply flat_map_ext; intros i.
  replace (k + S i)%nat with (S k + i)%nat by lia. reflexivity.
Qed.

Lemma retry_events_delay (rq : http_request) (n : nat) :
  retry_events rq n 1 = flat_map (fun i => [Sent rq; Slept (delay i)]) (seq 0 n).
Proof. exact (retry_events_delay_from rq n 0). Qed.

(** The history of [n] retries and the answered request, read as separate
    logs: the request [n + 1] times, and the delays 1, 2, 4, ... up to 30. *)
Lemma retry_history_read (rq : http_request) (n : nat) :
  sent_in (flat_map (fun i => [Sent rq; Slept (delay i)]) (seq 0 n) ++ [Sent rq])
  = repeat rq (S n)
  /\ slept_in (flat_map (fun i => [Sent rq; Slept (delay i)]) (seq 0 n) ++ [Sent rq])
     = map delay (seq 0 n)
  /\ printed_in (flat_map (fun i => [Sent rq; Slept (delay i)]) (seq 0 n) ++ [Sent rq])
     = [].
Proof.
  rewrite <- retry_events_delay, sent_in_app, slept_in_app, printed_in_app,
    sent_in_retry_events, slept_in_retry_events, printed_in_retry_events,
    backoff_seq_delay.
  cbn [sent_in slept_in printed_in]. rewrite app_nil_r.
  split; [|split; reflexivity].
  change (repeat rq (S n)) with (rq :: repeat rq n). symmetry. apply repeat_cons.
Qed.

(** With [debug] bound, [_request] is its loop run after the debug lines. *)
Lemma request_prelude (self : MarketingPlatformClient) (method path : string)
    (params json_body : option dict) (max_retries : Z) (w : world) (d : bool) :
  debug w = Some d ->
  _request self method path params json_body max_retries w
  = attempts (Z.to_nat max_retries) (request_of self method path params json_body)
      max_retries 1
      (emit (debug_lines d (request_of self method path params json_body)) w).
Proof.
  intros Hd. unfold _request, bind, read_debug. rewrite Hd.
  unfold emit, debug_lines, request_of.
  cbn [rq_method rq_url rq_params rq_json].
  destruct d, (opt_dict_truthy params), (opt_dict_truthy json_body);
    cbv [print ret]; cbv beta iota; rewrite ?record_record;
    cbn [app map]; rewrite ?record_nil; reflexivity.
Qed.

(** One turn of the loop. *)
Lemma attempts_S (n : nat) (rq : http_request) (mr b : Z) :
  attempts (S n) rq mr b
  = (resp <- session_request rq ;;
     if status_code resp =? 429 then
       time_sleep b ;; attempts n rq mr (Z.min (b * 2) 30)
     else if (200 <=? status_code resp) && (status_code resp <? 300) then
       match json resp with
       | Some v => ret v
       | None => raise (MPError ("Non-JSON response from " ++ rq_url rq))
       end
     else if is_terminal (status_code resp) then
       raise (MPError (str_int (status_code resp) ++ " error from " ++ rq_url rq
                         ++ ": " ++ text resp))
     else
       time_sleep b ;; attempts n rq mr (Z.min (b * 2) 30)).
Proof. reflexivity. Qed.

(** Runs the first attempt of the loop in the goal, the answer to it being
    given by the equation [H]. *)
Ltac first_attempt H :=
  rewrite attempts_S; unfold bind at 1; unfold session_request; rewrite H.

(** A run of [n] rate-limited answers followed by a success, with attempts
    to spare: request and sleep alternate, the last request is answered. *)
Lemma attempts_retry_then_ok (n m : nat) (rq : http_request) (mr : Z) :
  forall (b : Z) (w : world) (r : http_response) (j : value),
    (forall i, (i < n)%nat ->
       exists ri, transport w (List.length (requests w) + i)%nat rq = Responded ri
                  /\ status_code ri = 429) ->
    transport w (List.length (requests w) + n)%nat rq = Responded r ->
    200 <= status_code r < 300 ->
    json r = Some j ->
    attempts (S (n + m)) rq mr b w
    = (Ok j, record (retry_events rq n b ++ [Sent rq]) w).
Proof.
  induction n as [|n IH]; intros b w r j H429 Hr Hst Hj.
  - rewrite Nat.add_0_r in Hr.
    first_attempt Hr.
    assert (E1 : (status_code r =? 429) = false) by (apply Z.eqb_neq; lia).
    assert (E2 : ((200 <=? status_code r) && (status_code r <? 300)) = true)
      by (apply andb_true_iff; split; [apply Z.leb_le | apply Z.ltb_lt]; lia).
    rewrite E1, E2, Hj. reflexivity.
  - destruct (H429 O) as (r0 & Hr0 & Hs0); [lia|]. rewrite Nat.add_0_r in Hr0.
    change (S (S n + m)) with (S (S (n + m))).
    first_attempt Hr0.
    rewrite Hs0, Z.eqb_refl. unfold bind at 1. unfold time_sleep. cbv beta iota.
    rewrite record_record.
    rewrite (IH (Z.min (b * 2) 30) (record ([Sent rq] ++ [Slept b]) w) r j).
    + rewrite record_record. reflexivity.
    + intros i Hi. rewrite requests_record, length_app.
      destruct (H429 (S i)) as (ri & Hri & Hsi); [lia|].
      exists ri. split; [|exact Hsi].
      change (sent_in ([Sent rq] ++ [Slept b])) with [rq].
      change (transport (record ([Sent rq] ++ [Slept b]) w)) with (transport w).
      rewrite <- Hri. f_equal. cbn [List.length]. lia.
    + rewrite requests_record, length_app.
      change (sent_in ([Sent rq] ++ [Slept b])) with [rq].
      change (transport (record ([Sent rq] ++ [Slept b]) w)) with (transport w).
      rewrite <- Hr. f_equal. cbn [List.length]. lia.
    + exact Hst.
    + exact Hj.
Qed.

(** Every attempt sends the one request and nothing else does: a run of
    [attempts n] sends it between once (when [n] is positive) and [n] times,
    and prints nothing. *)
Lemma attempts_requests (n : nat) (rq : http_request) (mr : Z) :
  forall (b : Z) (w : world) (res : result value) (w' : world),
    attempts n rq mr b w = (res, w') ->
    exists es k,
      w' = record es w
      /\ (k <= n)%nat /\ (0 < n -> 0 < k)%nat
      /\ sent_in es = repeat rq k
      /\ printed_in es = [].
Proof.
  induction n as [|n IH]; intros b w res w' Hrun.
  - cbn in Hrun. injection Hrun as _ <-. exists [], O. rewrite record_nil.
    repeat split; lia.
  - rewrite attempts_S in Hrun. unfold bind at 1 in Hrun.
    unfold session_request in Hrun.
    assert (Hone : forall x : result value,
               (x, record [Sent rq] w) = (res, w') ->
               exists es k, w' = record es w /\ (k <= S n)%nat /\ (0 < S n -> 0 < k)%nat
                 /\ sent_in es = repeat rq k /\ printed_in es = []).
    { intros x Hx. injection Hx as _ <-. exists [Sent rq], 1%nat.
      repeat split; lia. }
    assert (Hretry :
               (time_sleep b ;; attempts n rq mr (Z.min (b * 2) 30)) (record [Sent rq] w)
               = (res, w') ->
               exists es k, w' = record es w /\ (k <= S n)%nat /\ (0 < S n -> 0 < k)%nat
                 /\ sent_in es = repeat rq k /\ printed_in es = []).
    { unfold bind, time_sleep. cbv beta iota. rewrite record_record. intros Hx.
      destruct (IH _ _ _ _ Hx) as (es & k & -> & Hk & _ & Hsent & Hprint).
      exists (([Sent rq] ++ [Slept b]) ++ es)%list, (S k).
      rewrite record_record.
      split; [reflexivity|]. split; [lia|]. split; [lia|].
      rewrite sent_in_app, printed_in_app, Hsent, Hprint. split; reflexivity. }
    destruct (transport w (List.length (requests w)) rq) as [r|e]; [|exact (Hone _ Hrun)].
    destruct (status_code r =? 429); [exact (Hretry Hrun)|].
    destruct ((200 <=? status_code r) && (status_code r <? 300)).
    { destruct (json r); exact (Hone _ Hrun). }
    destruct (is_terminal (status_code r)); [exact (Hone _ Hrun) | exact (Hretry Hrun)].
Qed.

(** A terminal status on the first attempt ends the run at once. *)
Lemma attempts_terminal (n : nat) (rq : http_request) (mr b : Z) (w : world)
    (r : http_response) :
  transport w (List.length (requests w)) rq = Responded r ->
  In (status_code r) terminal_codes ->
  attempts (S n) rq mr b w
  = (Raise (MPError (str_int (status_code r) ++ " error from " ++ rq_url rq
                       ++ ": " ++ text r)),
     record [Sent rq] w).
Proof.
  intros Hr Hin. first_attempt Hr. unfold terminal_codes in Hin. cbn [In] in Hin.
  destruct Hin as [E|[E|[E|[E|[E|[E|[]]]]]]]; rewrite <- E; reflexivity.
Qed.

(** The debug lines change neither the answers nor the count of requests. *)
Lemma transport_emit (outs : list output) (w : world) :
  transport (emit outs w) = transport w
  /\ List.length (requests (emit outs w)) = List.length (requests w).
Proof.
  unfold emit. split; [reflexivity|].
  rewrite requests_record, sent_in_printed, app_nil_r. reflexivity.
Qed.

(** C2 (as amended): when fewer than [max_retries] answers with status 429
    are followed by a success answer with a JSON body, [_request] returns the
    decoded body of the success answer, and its history is, after the debug
    lines: the request, a sleep of 1, the request, a sleep of 2, ... each
    delay the double of the one before up to the cap 30, and last the
    request that succeeds. *)
Theorem request_backoff_then_success (self : MarketingPlatformClient)
    (method path : string) (params json_body : option dict) (max_retries : Z)
    (w : world) (d : bool) (n : nat) (r : http_response) (j : value) :
  debug w = Some d ->
  Z.of_nat n < max_retries ->
  (forall i, (i < n)%nat ->
     exists ri,
       transport w (List.length (requests w) + i)%nat
         (request_of self method path params json_body) = Responded ri
       /\ status_code ri = 429) ->
  transport w (List.length (requests w) + n)%nat
    (request_of self method path params json_body) = Responded r ->
  200 <= status_code r < 300 ->
  json r = Some j ->
  _request self method path params json_body max_retries w
  = (Ok j,
     record
       (map Printed (debug_lines d (request_of self method path params json_body))
        ++ flat_map (fun i => [Sent (request_of self method path params json_body);
                               Slept (Z.min (2 ^ Z.of_nat i) 30)])
             (seq 0 n)
        ++ [Sent (request_of self method path params json_body)])
       w).
Proof.
  intros Hd Hn H429 Hr Hst Hj.
  rewrite (request_prelude self method path params json_body max_retries w d Hd).
  assert (Hm : Z.to_nat max_retries = S (n + (Z.to_nat max_retries - S n))) by lia.
  rewrite Hm.
  destruct (transport_emit
              (debug_lines d (request_of self method path params json_body)) w)
    as [Ht Hlen].
  rewrite (attempts_retry_then_ok n _ _ _ 1 _ r j).
  - unfold emit. rewrite record_record, retry_events_delay. reflexivity.
  - intros i Hi. rewrite Ht, Hlen. exact (H429 i Hi).
  - rewrite Ht, Hlen. exact Hr.
  - exact Hst.
  - exact Hj.
Qed.

(** C3: a first answer whose status is one of 400, 401, 403, 404, 409, 500
    makes [_request] fail at once with an [MPError] that carries the status
    code and the raw body; after the debug lines its history is the one
    request: no second request, no sleep. *)
Theorem request_terminal_status_fails_at_once (self : MarketingPlatformClient)
    (method path : string) (params json_body : option dict) (max_retries : Z)
    (w : world) (d : bool) (r : http_response) :
  debug w = Some d ->
  1 <= max_retries ->
  transport w (List.length (requests w))
    (request_of self method path params json_body) = Responded r ->
  In (status_code r) [400; 401; 403; 404; 409; 500] ->
  _request self method path params json_body max_retries w
  = (Raise (MPError (str_int (status_code r) ++ " error from "
                       ++ (base_url self ++ path) ++ ": " ++ text r)),
     record
       (map Printed (debug_lines d (request_of self method path params json_body))
        ++ [Sent (request_of self method path params json_body)])
       w).
Proof.
  intros Hd Hmr Hr Hin.
  rewrite (request_prelude self method path params json_body max_retries w d Hd).
  assert (Hm : Z.to_nat max_retries = S (Z.to_nat max_retries - 1)) by lia.
  rewrite Hm.
  destruct (transport_emit
              (debug_lines d (request_of self method path params json_body)) w)
    as [Ht Hlen].
  rewrite (attempts_terminal _ _ _ _ _ r).
  - unfold emit. rewrite record_record. reflexivity.
  - rewrite Ht, Hlen. exact Hr.
  - exact Hin.
Qed.

(** ** The pagination iterator *)

(** One call of [get_lists] answered on the first attempt by a success with
    a JSON body. *)
Lemma get_lists_first_answer (self : MarketingPlatformClient) (listid limit offset : Z)
    (w : world) (d : bool) (r : http_response) (j : value) :
  debug w = Some d ->
  transport w (List.length (requests w)) (lists_request self listid limit offset)
  = Responded r ->
  200 <= status_code r < 300 ->
  json r = Some j ->
  get_lists self listid limit offset w
  = (Ok j,
     record (map Printed (debug_lines d (lists_request self listid limit offset))
             ++ [Sent (lists_request self listid limit offset)]) w).
Proof.
  intros Hd Hr Hst Hj. unfold get_lists, request.
  rewrite (request_prelude self "GET" "/Lists" _ None default_max_retries w d Hd).
  change (Z.to_nat default_max_retries) with (S (0 + 4)).
  fold (lists_request self listid limit offset).
  destruct (transport_emit (debug_lines d (lists_request self listid limit offset)) w)
    as [Ht Hlen].
  rewrite (attempts_retry_then_ok 0 4 _ _ 1 _ r j).
  - unfold emit. rewrite record_record. reflexivity.
  - intros i Hi. lia.
  - rewrite Ht, Hlen, Nat.add_0_r. exact Hr.
  - exact Hst.
  - exact Hj.
Qed.

(** After a listing call that was answered at once, one more request has
    been sent and the remote end is the same. *)
Lemma after_listing_call (rq : http_request) (outs : list output) (w : world) :
  debug (record (map Printed outs ++ [Sent rq]) w) = debug w
  /\ transport (record (map Printed outs ++ [Sent rq]) w) = transport w
  /\ List.length (requests (record (map Printed outs ++ [Sent rq]) w))
     = S (List.length (requests w)).
Proof.
  split; [reflexivity|]. split; [reflexivity|].
  rewrite requests_record, sent_in_app, sent_in_printed, length_app. cbn. lia.
Qed.

(** The iterator over a run of full pages closed by a short one, from any
    offset: per page the debug lines and one request. *)
Lemma iter_lists_from_pages (self : MarketingPlatformClient) (listid page_size : Z)
    (d : bool) (last : list value) :
  Z.of_nat (List.length last) < page_size ->
  forall (full : list (list value)) (offset : Z) (w : world) (fuel : nat),
    debug w = Some d ->
    Forall (fun pg => Z.of_nat (List.length pg) = page_size) full ->
    (forall k pg, nth_error (full ++ [last])%list k = Some pg ->
       exists r,
         transport w (List.length (requests w) + k)%nat
           (lists_request self listid page_size (offset + Z.of_nat k * page_size))
         = Responded r
         /\ page_response r pg) ->
    (List.length full < fuel)%nat ->
    iter_lists_from fuel self listid page_size offset w
    = Some (List.concat (full ++ [last])%list, None,
            record
              (flat_map
                 (fun k =>
                    (map Printed
                       (debug_lines d
                          (lists_request self listid page_size
                             (offset + Z.of_nat k * page_size)))
                     ++ [Sent (lists_request self listid page_size
                                 (offset + Z.of_nat k * page_size))])%list)
                 (seq 0 (S (List.length full))))
              w).
Proof.
  intros Hlast. induction full as [|pg full IH]; intros offset w fuel Hd Hfull Hpages Hfuel.
  - destruct fuel as [|fuel]; [cbn in Hfuel; lia|].
    destruct (Hpages O last eq_refl) as (r & Hr & Hst & kvs & Hj & Hdata).
    rewrite Nat.add_0_r in Hr.
    change (Z.of_nat 0) with 0 in *. rewrite Z.mul_0_l, Z.add_0_r in Hr.
    change (List.concat ([] ++ [last])%list) with (last ++ [])%list.
    rewrite app_nil_r.
    change (seq 0 (S (List.length (@nil (list value))))) with [O].
    cbn [flat_map]. change (Z.of_nat 0) with 0. rewrite Z.mul_0_l, Z.add_0_r, app_nil_r.
    cbn [iter_lists_from].
    rewrite (get_lists_first_answer self listid page_size offset w d r _ Hd Hr Hst Hj).
    cbn [py_get]. rewrite Hdata.
    destruct last as [|x xs]; [reflexivity|].
    cbn [or_empty_list truthy negb py_iter py_len].
    apply Z.ltb_lt in Hlast. rewrite Hlast. reflexivity.
  - destruct fuel as [|fuel]; [cbn in Hfuel; lia|].
    destruct (Hpages O pg eq_refl) as (r & Hr & Hst & kvs & Hj & Hdata).
    rewrite Nat.add_0_r in Hr.
    change (Z.of_nat 0) with 0 in Hr. rewrite Z.mul_0_l, Z.add_0_r in Hr.
    assert (Hpg : Z.of_nat (List.length pg) = page_size) by (inversion Hfull; assumption).
    assert (Hrest : Forall (fun pg => Z.of_nat (List.length pg) = page_size) full)
      by (inversion Hfull; assumption).
    destruct (after_listing_call (lists_request self listid page_size offset)
                (debug_lines d (lists_request self listid page_size offset)) w)
      as (Hd1 & Ht1 & Hlen1).
    cbn [iter_lists_from].
    rewrite (get_lists_first_answer self listid page_size offset w d r _ Hd Hr Hst Hj).
    cbn [py_get]. rewrite Hdata.
    destruct pg as [|x xs]; [cbn in Hpg; pose proof (Zle_0_nat (List.length last)); lia|].
    cbn [or_empty_list truthy negb py_iter py_len].
    assert (Hge : (Z.of_nat (List.length (x :: xs)) <? page_size) = false)
      by (apply Z.ltb_ge; lia).
    rewrite Hge. rewrite (IH (offset + page_size) _ fuel).
    + rewrite record_record. cbn [List.length].
      change (seq 0 (S (S (List.length full))))
        with (O :: seq 1 (S (List.length full))).
      cbn [flat_map]. change (Z.of_nat 0) with 0. rewrite Z.mul_0_l, Z.add_0_r.
      rewrite <- seq_shift, flat_map_after_map.
      do 4 f_equal. apply flat_map_ext. intros k.
      replace (offset + Z.of_nat (S k) * page_size)
        with (offset + page_size + Z.of_nat k * page_size)
        by (rewrite Nat2Z.inj_succ; ring).
      reflexivity.
    + rewrite Hd1. exact Hd.
    + exact Hrest.
    + intros k pg' Hk. destruct (Hpages (S k) pg' Hk) as (r' & Hr' & Hpr').
      exists r'. split; [|exact Hpr'].
      rewrite Ht1, Hlen1. rewrite <- Hr'. f_equal; [lia|].
      f_equal. rewrite Nat2Z.inj_succ. ring.
    + cbn in Hfuel. lia.
Qed.

(** C1: when the listing is answered by full pages of [page_size] items
    closed by a shorter page, [iter_lists] yields the items of all pages in
    order and then stops; its history is, page after page, the debug lines
    and the one request for the page number [k] at offset [k * page_size]:
    nothing is sent after the short page and nothing sleeps.  Any fuel
    above the number of full pages is enough. *)
Theorem iter_lists_yields_all_pages (self : MarketingPlatformClient)
    (listid page_size : Z) (w : world) (d : bool)
    (full : list (list value)) (last : list value) (fuel : nat) :
  debug w = Some d ->
  Forall (fun pg => Z.of_nat (List.length pg) = page_size) full ->
  Z.of_nat (List.length last) < page_size ->
  (forall k pg, nth_error (full ++ [last])%list k = Some pg ->
     exists r,
       transport w (List.length (requests w) + k)%nat
         (lists_request self listid page_size (Z.of_nat k * page_size)) = Responded r
       /\ page_response r pg) ->
  (List.length full < fuel)%nat ->
  iter_lists fuel self listid page_size w
  = Some (List.concat (full ++ [last])%list, None,
          record
            (flat_map
               (fun k =>
                  (map Printed
                     (debug_lines d
                        (lists_request self listid page_size (Z.of_nat k * page_size)))
                   ++ [Sent (lists_request self listid page_size
                               (Z.of_nat k * page_size))])%list)
               (seq 0 (S (List.length full))))
            w).
Proof.
  intros Hd Hfull Hlast Hpages Hfuel. unfold iter_lists.
  exact (iter_lists_from_pages self listid page_size d last Hlast full 0 w fuel
           Hd Hfull Hpages Hfuel).
Qed.

(** The scenario of the listing example: page size 2, two answers, three
    items over exactly two requests at offsets 0 and 2. *)
Lemma iter_lists_yields_all_pages_witness :
  iter_lists 2 demo_client 0 2
    (start_world (scripted [Responded page_one; Responded page_two]))
  = Some ([VDict [("id", VInt 1)]; VDict [("id", VInt 2)]; VDict [("id", VInt 3)]],
          None,
          mk_world (Some false) (scripted [Responded page_one; Responded page_two])
            [Sent (lists_request demo_client 0 2 0);
             Sent (lists_request demo_client 0 2 2)]).
Proof.
  apply (iter_lists_yields_all_pages demo_client 0 2
           (start_world (scripted [Responded page_one; Responded page_two]))
           false [page_one_items] page_two_items 2).
  - reflexivity.
  - repeat constructor.
  - simpl; lia.
  - intros k pg Hk. destruct k as [|[|k]].
    + injection Hk as <-. exists page_one. split; [reflexivity|].
      split; [simpl; lia|]. eexists; split; reflexivity.
    + injection Hk as <-. exists page_two. split; [reflexivity|].
      split; [simpl; lia|]. eexists; split; reflexivity.
    + destruct k; discriminate Hk.
  - simpl; lia.
Defined.

(** C7: when the first answer of the listing is a page whose item
    collection is empty, missing or null, [iter_lists] yields nothing and
    its history is, after the debug lines, exactly one request. *)
Theorem iter_lists_empty_first_page (self : MarketingPlatformClient)
    (listid page_size : Z) (w : world) (d : bool) (r : http_response) (kvs : dict)
    (fuel : nat) :
  debug w = Some d ->
  transport w (List.length (requests w)) (lists_request self listid page_size 0)
  = Responded r ->
  200 <= status_code r < 300 ->
  json r = Some (VDict kvs) ->
  empty_page kvs ->
  iter_lists (S fuel) self listid page_size w
  = Some ([], None,
          record (map Printed (debug_lines d (lists_request self listid page_size 0))
                  ++ [Sent (lists_request self listid page_size 0)]) w).
Proof.
  intros Hd Hr Hst Hj Hempty. unfold iter_lists. cbn [iter_lists_from].
  rewrite (get_lists_first_answer self listid page_size 0 w d r _ Hd Hr Hst Hj).
  cbn [py_get].
  destruct Hempty as [E|[E|E]]; rewrite E; reflexivity.
Qed.

Lemma iter_lists_empty_first_page_witness :
  iter_lists 1 demo_client 0 100 (start_world (scripted [Responded empty_object]))
  = Some ([], None,
          mk_world (Some false) (scripted [Responded empty_object])
            [Sent (lists_request demo_client 0 100 0)]).
Proof.
  apply (iter_lists_empty_first_page demo_client 0 100
           (start_world (scripted [Responded empty_object])) false empty_object [] 0).
  - reflexivity.
  - reflexivity.
  - simpl; lia.
  - reflexivity.
  - right; left; reflexivity.
Defined.

(** ** Concrete runs of the request executor *)

(** Two rate-limited answers, then the page: request, sleep 1, request,
    sleep 2, request. *)
Lemma request_backoff_then_success_witness :
  _request demo_client "GET" "/Lists" None None 5
    (start_world (scripted [Responded too_many_requests; Responded too_many_requests;
                            Responded page_two]))
  = (Ok (VDict [("data", VList page_two_items)]),
     mk_world (Some false)
       (scripted [Responded too_many_requests; Responded too_many_requests;
                  Responded page_two])
       [Sent (request_of demo_client "GET" "/Lists" None None); Slept 1;
        Sent (request_of demo_client "GET" "/Lists" None None); Slept 2;
        Sent (request_of demo_client "GET" "/Lists" None None)]).
Proof.
  apply (request_backoff_then_success demo_client "GET" "/Lists" None None 5
           (start_world (scripted [Responded too_many_requests; Responded too_many_requests;
                                   Responded page_two]))
           false 2 page_two (VDict [("data", VList page_two_items)])).
  - reflexivity.
  - simpl; lia.
  - intros i Hi. exists too_many_requests.
    destruct i as [|[|i]]; [split; reflexivity | split; reflexivity | lia].
  - reflexivity.
  - simpl; lia.
  - reflexivity.
Defined.

(** C2 as stated fails once the rate-limited answers are as many as the
    attempts: after five of them the default [_request] gives up with the
    exhausted-retries error and never sees the success that would follow. *)
Lemma request_backoff_counterexample :
  _request demo_client "GET" "/Lists" None None default_max_retries
    five_rate_limits_then_page
  = (Raise (MPError "Failed after 5 attempts: https://api.mailmailmail.net/v2.0/Lists"),
     record
       [Sent (request_of demo_client "GET" "/Lists" None None); Slept 1;
        Sent (request_of demo_client "GET" "/Lists" None None); Slept 2;
        Sent (request_of demo_client "GET" "/Lists" None None); Slept 4;
        Sent (request_of demo_client "GET" "/Lists" None None); Slept 8;
        Sent (request_of demo_client "GET" "/Lists" None None); Slept 16]
       five_rate_limits_then_page)
  /\ fst (_request demo_client "GET" "/Lists" None None default_max_retries
            five_rate_limits_then_page)
     <> Ok (VDict [("data", VList page_two_items)]).
Proof.
  split; [reflexivity|]. vm_compute. discriminate.
Qed.

Lemma request_terminal_status_fails_at_once_witness :
  _request demo_client "DELETE" "/Segments" (Some [("segmentid", VInt 7)]) None 5
    (start_world (scripted [Responded not_found]))
  = (Raise (MPError "404 error from https://api.mailmailmail.net/v2.0/Segments: Not Found"),
     mk_world (Some false) (scripted [Responded not_found])
       [Sent (request_of demo_client "DELETE" "/Segments"
                (Some [("segmentid", VInt 7)]) None)]).
Proof.
  apply (request_terminal_status_fails_at_once demo_client "DELETE" "/Segments"
           (Some [("segmentid", VInt 7)]) None 5
           (start_world (scripted [Responded not_found])) false not_found).
  - reflexivity.
  - lia.
  - reflexivity.
  - simpl. right; right; right; left; reflexivity.
Defined.

(** ** Local validation in the resource operations *)

(** With [debug] bound, [request] sends its request at least once and at
    most five times, and sends nothing else. *)
Lemma request_sends (self : MarketingPlatformClient) (method path : string)
    (params json_body : option dict) (w : world) (d : bool) :
  debug w = Some d ->
  exists k, (1 <= k <= 5)%nat
    /\ requests (snd (request self method path params json_body w))
       = (requests w ++ repeat (request_of self method path params json_body) k)%list.
Proof.
  intros Hd. unfold request.
  rewrite (request_prelude self method path params json_body default_max_retries w d Hd).
  destruct (attempts (Z.to_nat default_max_retries)
              (request_of self method path params json_body) default_max_retries 1
              (emit (debug_lines d (request_of self method path params json_body)) w))
    as [res w'] eqn:E.
  destruct (attempts_requests _ _ _ _ _ _ _ E) as (es & k & -> & Hk & Hpos & Hsent & _).
  exists k. change (Z.to_nat default_max_retries) with 5%nat in Hk, Hpos.
  split; [lia|]. cbn [snd]. unfold emit.
  rewrite requests_record, requests_record, sent_in_printed, app_nil_r, Hsent.
  reflexivity.
Qed.

(** The operations that check their required identifier reject the value 0
    with a [ValueError] and leave the world as it was. *)
Lemma required_identifier_checked (self : MarketingPlatformClient) (w : world) :
  (forall count_only search_type start_date end_date limit offset,
      get_unsubscribes_by_list self 0 count_only search_type start_date end_date
        limit offset w = (Raise (ValueError "listid is required"), w))
  /\ (forall email mobile prefix fields confirmed mobile_confirmed autoresponders,
         add_profile_to_list self 0 email mobile prefix fields confirmed mobile_confirmed
           autoresponders w = (Raise (ValueError "listid is required"), w))
  /\ (forall fields,
         update_profile self 0 fields w = (Raise (ValueError "profileid is required"), w))
  /\ (forall name rules connector,
         edit_segment self 0 name rules connector w
         = (Raise (ValueError "segmentid is required"), w))
  /\ delete_segment self 0 w = (Raise (ValueError "segmentid is required"), w)
  /\ delete_data_field self 0 w = (Raise (ValueError "fieldid is required"), w)
  /\ (forall field_ids,
         lists_add_data_fields self 0 field_ids w
         = (Raise (ValueError "listid and field_ids are required"), w))
  /\ (forall field_ids,
         lists_remove_data_fields self 0 field_ids w
         = (Raise (ValueError "listid and field_ids are required"), w))
  /\ (forall date type limit offset,
         get_profiles_sms_unsubscribed self 0 date type limit offset w
         = (Raise (ValueError "listid is required"), w)).
Proof. repeat split; intros; reflexivity. Qed.

(** C4 at the failing inputs: four operations that take a required
    identifier pass the value 0 on to the remote end instead of refusing
    it. *)
Theorem unchecked_identifier_is_dispatched :
  get_profiles_by_list demo_client 0 100 0 answer_once
  = (Ok (VDict []),
     mk_world (Some false) (scripted [Responded empty_object])
       [Sent (request_of demo_client "GET" "/Profiles/GetProfilesByList"
                (Some [("listid", VInt 0); ("limit", VInt 100); ("offset", VInt 0)])
                None)])
  /\ get_profiles_from_segment demo_client 0 100 0 answer_once
     = (Ok (VDict []),
        mk_world (Some false) (scripted [Responded empty_object])
          [Sent (request_of demo_client "GET" "/Profiles/GetProfilesFromSegment"
                   (Some [("segmentid", VInt 0); ("limit", VInt 100); ("offset", VInt 0)])
                   None)])
  /\ lists_get_data_fields demo_client 0 None 100 0 answer_once
     = (Ok (VDict []),
        mk_world (Some false) (scripted [Responded empty_object])
          [Sent (request_of demo_client "GET" "/Lists/GetDataFields"
                   (Some [("listid", VInt 0); ("limit", VInt 100); ("offset", VInt 0)])
                   None)])
  /\ schedule_send_newsletter_to_list demo_client 12 0 None answer_once
     = (Ok (VDict []),
        mk_world (Some false) (scripted [Responded empty_object])
          [Sent (request_of demo_client "POST" "/Send/ScheduleSendNewsletterToList" None
                   (Some [("newsletterid", VInt 12); ("listid", VInt 0)]))]).
Proof. repeat split; reflexivity. Qed.

(** C5: [add_profile_to_list] without an email address and without both a
    mobile number and a prefix raises [ValueError]; the world is unchanged,
    so no request was sent. *)
Theorem add_profile_needs_email_or_mobile (self : MarketingPlatformClient) (listid : Z)
    (email_address mobile_number mobile_prefix : option string)
    (data_fields : option (list value))
    (confirmed mobile_confirmed add_to_autoresponders : bool) (w : world) :
  opt_str_truthy email_address = false ->
  opt_str_truthy mobile_number && opt_str_truthy mobile_prefix = false ->
  exists msg,
    add_profile_to_list self listid email_address mobile_number mobile_prefix data_fields
      confirmed mobile_confirmed add_to_autoresponders w
    = (Raise (ValueError msg), w).
Proof.
  intros He Hm. unfold add_profile_to_list. rewrite He, Hm. cbn [negb andb].
  destruct (listid =? 0); eexists; reflexivity.
Qed.

Lemma add_profile_needs_email_or_mobile_witness :
  exists msg,
    add_profile_to_list demo_client 5 None (Some "5550100") None None true true false
      answer_once
    = (Raise (ValueError msg), answer_once).
Proof.
  apply (add_profile_needs_email_or_mobile demo_client 5 None (Some "5550100") None None
           true true false answer_once).
  - reflexivity.
  - reflexivity.
Defined.

(** C6: a limit above 1000 given to [get_profiles_sms_unsubscribed], the
    other arguments being valid, is not refused: the operation goes on to
    the request executor with the parameter [limit] set to 1000, and every
    request it sends carries these parameters. *)
Theorem sms_unsubscribed_limit_capped (self : MarketingPlatformClient) (listid : Z)
    (date : value) (type : string) (limit offset : Z) (w : world) (d : bool) :
  debug w = Some d ->
  listid <> 0 ->
  date_missing date = false ->
  mem (lower type) sms_types = true ->
  1000 < limit ->
  get_profiles_sms_unsubscribed self listid date type limit offset w
  = request self "GET" "/Profiles/GetProfilesSMSUnsubscribed"
      (Some [("listid", VInt listid); ("date", date); ("type", VStr (lower type));
             ("limit", VInt 1000); ("offset", VInt offset)]) None w
  /\ exists k, (1 <= k <= 5)%nat
       /\ requests (snd (get_profiles_sms_unsubscribed self listid date type limit offset w))
          = (requests w
             ++ repeat (request_of self "GET" "/Profiles/GetProfilesSMSUnsubscribed"
                          (Some [("listid", VInt listid); ("date", date);
                                 ("type", VStr (lower type));
                                 ("limit", VInt 1000); ("offset", VInt offset)]) None)
                  k)%list.
Proof.
  intros Hd Hl Hdate Hty Hlim.
  assert (E : get_profiles_sms_unsubscribed self listid date type limit offset w
              = request self "GET" "/Profiles/GetProfilesSMSUnsubscribed"
                  (Some [("listid", VInt listid); ("date", date);
                         ("type", VStr (lower type));
                         ("limit", VInt 1000); ("offset", VInt offset)]) None w).
  { unfold get_profiles_sms_unsubscribed. unfold mem in Hty.
    apply Z.eqb_neq in Hl. rewrite Hl, Hdate, Hty. cbn [negb].
    assert (H1 : (limit <=? 0) = false) by (apply Z.leb_gt; lia).
    assert (H2 : (limit >? 1000) = true) by (apply Z.gtb_lt; lia).
    rewrite H1, H2. reflexivity. }
  split; [exact E|]. rewrite E. apply (request_sends _ _ _ _ _ _ d Hd).
Qed.

Lemma sms_unsubscribed_limit_capped_witness :
  get_profiles_sms_unsubscribed demo_client 5 (VStr "2024-06-01") "on" 5000 0 answer_once
  = request demo_client "GET" "/Profiles/GetProfilesSMSUnsubscribed"
      (Some [("listid", VInt 5); ("date", VStr "2024-06-01"); ("type", VStr (lower "on"));
             ("limit", VInt 1000); ("offset", VInt 0)]) None answer_once
  /\ exists k, (1 <= k <= 5)%nat
       /\ requests (snd (get_profiles_sms_unsubscribed demo_client 5 (VStr "2024-06-01")
                           "on" 5000 0 answer_once))
          = (requests answer_once
             ++ repeat (request_of demo_client "GET" "/Profiles/GetProfilesSMSUnsubscribed"
                          (Some [("listid", VInt 5); ("date", VStr "2024-06-01");
                                 ("type", VStr (lower "on"));
                                 ("limit", VInt 1000); ("offset", VInt 0)]) None)
                  k)%list.
Proof.
  apply (sms_unsubscribed_limit_capped demo_client 5 (VStr "2024-06-01") "on" 5000 0
           answer_once false).
  - reflexivity.
  - lia.
  - reflexivity.
  - reflexivity.
  - lia.
Defined.

(** C10: a limit of 0 or less given to [get_profiles_sms_unsubscribed]
    raises [ValueError] with the world unchanged, so before any request; when
    the other arguments are valid the error is the one about the limit. *)
Theorem sms_unsubscribed_nonpositive_limit_rejected (self : MarketingPlatformClient)
    (listid : Z) (date : value) (type : string) (limit offset : Z) (w : world) :
  limit <= 0 ->
  (exists msg,
      get_profiles_sms_unsubscribed self listid date type limit offset w
      = (Raise (ValueError msg), w))
  /\ (listid <> 0 -> date_missing date = false -> mem (lower type) sms_types = true ->
      get_profiles_sms_unsubscribed self listid date type limit offset w
      = (Raise (ValueError "limit must be > 0"), w)).
Proof.
  intros Hlim. apply Z.leb_le in Hlim. unfold get_profiles_sms_unsubscribed, mem.
  split.
  - destruct (listid =? 0); [eexists; reflexivity|].
    destruct (date_missing date); [eexists; reflexivity|].
    destruct (existsb (String.eqb (lower type)) sms_types); cbn [negb];
      [|eexists; reflexivity].
    rewrite Hlim. eexists; reflexivity.
  - intros Hl Hdate Hty. apply Z.eqb_neq in Hl. rewrite Hl, Hdate, Hty. cbn [negb].
    rewrite Hlim. reflexivity.
Qed.

Lemma sms_unsubscribed_nonpositive_limit_rejected_witness :
  (exists msg,
      get_profiles_sms_unsubscribed demo_client 5 (VStr "2024-06-01") "before" 0 0
        answer_once
      = (Raise (ValueError msg), answer_once))
  /\ get_profiles_sms_unsubscribed demo_client 5 (VStr "2024-06-01") "before" 0 0
       answer_once
     = (Raise (ValueError "limit must be > 0"), answer_once).
Proof.
  destruct (sms_unsubscribed_nonpositive_limit_rejected demo_client 5 (VStr "2024-06-01")
              "before" 0 0 answer_once) as [Hany Hlimit].
  - lia.
  - split; [exact Hany|]. apply Hlimit.
    + lia.
    + reflexivity.
    + reflexivity.
Defined.

(** ** Enumerated arguments *)




(** ** The top level *)

(** C9 (as amended): when [main] raises an exception of class [Exception],
    the script prints the one line made of Error, a colon, a space and the
    message, after what was printed before, and then ends normally: the exit
    status is 0. *)
Theorem toplevel_reports_and_exits_zero (p : process) (fuel : nat) (w w1 : world)
    (e : exn) :
  main p None fuel w = Some (Raise e, w1) ->
  is_Exception e = true ->
  script p fuel w = Some (record [Printed (Line ("Error: " ++ str_exn e))] w1, 0).
Proof.
  intros Hmain Hexc. unfold script. rewrite Hmain, Hexc. reflexivity.
Qed.

Lemma toplevel_reports_and_exits_zero_witness :
  script (demo_process (mk_args false (Lists 0 100)) None None) 1 (boot_world (scripted []))
  = Some (mk_world (Some false) (scripted [])
            [Printed (Line "Error: API username/token missing. Set MP_API_USERNAME and MP_API_TOKEN.")],
          0).
Proof.
  apply (toplevel_reports_and_exits_zero
           (demo_process (mk_args false (Lists 0 100)) None None) 1
           (boot_world (scripted []))
           (mk_world (Some false) (scripted []) [])
           (ValueError "API username/token missing. Set MP_API_USERNAME and MP_API_TOKEN.")).
  - reflexivity.
  - reflexivity.
Defined.

(** C9 as stated fails on the exit status: the listing answered by a 404
    makes [main] raise [MPError]; the script prints the error line and ends
    with status 0. *)
Lemma toplevel_exit_status_counterexample :
  main (demo_process (mk_args false (Lists 0 100)) (Some "alice") (Some "s3cret")) None 1
    (boot_world (scripted [Responded not_found]))
  = Some (Raise (MPError "404 error from https://api.mailmailmail.net/v2.0/Lists: Not Found"),
          mk_world (Some false) (scripted [Responded not_found])
            [Sent (lists_request demo_client 0 100 0)])
  /\ script (demo_process (mk_args false (Lists 0 100)) (Some "alice") (Some "s3cret")) 1
       (boot_world (scripted [Responded not_found]))
     = Some (mk_world (Some false) (scripted [Responded not_found])
               [Sent (lists_request demo_client 0 100 0);
                Printed (Line "Error: 404 error from https://api.mailmailmail.net/v2.0/Lists: Not Found")],
             0)
  /\ ~ (exists w' code,
           script (demo_process (mk_args false (Lists 0 100)) (Some "alice") (Some "s3cret"))
             1 (boot_world (scripted [Responded not_found]))
           = Some (w', code)
           /\ code <> 0).
Proof.
  assert (E : script (demo_process (mk_args false (Lists 0 100)) (Some "alice")
                        (Some "s3cret")) 1 (boot_world (scripted [Responded not_found]))
              = Some (mk_world (Some false) (scripted [Responded not_found])
                        [Sent (lists_request demo_client 0 100 0);
                         Printed (Line "Error: 404 error from https://api.mailmailmail.net/v2.0/Lists: Not Found")],
                      0)) by reflexivity.
  split; [reflexivity|]. split; [exact E|].
  intros (w' & code & H & Hcode). rewrite E in H. injection H as _ <-. apply Hcode.
  reflexivity.
Qed.

(** ** More on the request executor *)

Lemma answers_retryable_later (w : world) (rq : http_request) (n : nat) (es : list event) :
  sent_in es = [rq] ->
  answers_retryable w rq (S n) ->
  answers_retryable (record es w) rq n.
Proof.
  intros Hes H i Hi. destruct (H (S i)) as (ri & Hri & Hst); [lia|].
  exists ri. split; [|exact Hst].
  rewrite requests_record, Hes, length_app.
  change (transport (record es w)) with (transport w).
  rewrite <- Hri. f_equal. cbn [List.length]. lia.
Qed.

Lemma answers_retryable_emit (w : world) (rq : http_request) (n : nat) (outs : list output) :
  answers_retryable w rq n -> answers_retryable (emit outs w) rq n.
Proof.
  intros H i Hi. destruct (transport_emit outs w) as [Ht Hlen].
  rewrite Ht, Hlen. exact (H i Hi).
Qed.

(** After [n] answers that ask for a retry the loop stands where it would
    with [n] attempts fewer, the delay doubled [n] times (up to the cap), and
    a request and a sleep in the history for each. *)
Lemma attempts_after_retries (n m : nat) (rq : http_request) (mr : Z) :
  forall (b : Z) (w : world),
    answers_retryable w rq n ->
    attempts (n + m) rq mr b w
    = attempts m rq mr (backoff_after n b) (record (retry_events rq n b) w).
Proof.
  induction n as [|n IH]; intros b w H.
  - cbn [Nat.add backoff_after retry_events]. rewrite record_nil. reflexivity.
  - destruct (H O) as (r0 & Hr0 & Hst); [lia|]. rewrite Nat.add_0_r in Hr0.
    change (S n + m)%nat with (S (n + m)).
    first_attempt Hr0.
    assert (Hgo : (if status_code r0 =? 429
                   then time_sleep b ;; attempts (n + m) rq mr (Z.min (b * 2) 30)
                   else
                     if (200 <=? status_code r0) && (status_code r0 <? 300)
                     then match json r0 with
                          | Some v => ret v
                          | None => raise (MPError ("Non-JSON response from " ++ rq_url rq))
                          end
                     else
                       if is_terminal (status_code r0)
                       then raise (MPError (str_int (status_code r0) ++ " error from "
                                              ++ rq_url rq ++ ": " ++ text r0))
                       else time_sleep b ;; attempts (n + m) rq mr (Z.min (b * 2) 30))
                  = (time_sleep b ;; attempts (n + m) rq mr (Z.min (b * 2) 30))).
    { unfold retryable in Hst. destruct (status_code r0 =? 429); [reflexivity|].
      cbn [orb] in Hst. apply andb_true_iff in Hst. destruct Hst as [H1 H2].
      apply negb_true_iff in H1. apply negb_true_iff in H2. rewrite H1, H2. reflexivity. }
    rewrite Hgo. unfold bind at 1. unfold time_sleep. cbv beta iota.
    rewrite record_record.
    rewrite (IH (Z.min (b * 2) 30) (record ([Sent rq] ++ [Slept b]) w)).
    + rewrite record_record. reflexivity.
    + apply answers_retryable_later; [reflexivity | exact H].
Qed.

Lemma requests_after_retries (rq : http_request) (n : nat) (b : Z) (w : world) :
  transport (record (retry_events rq n b) w) = transport w
  /\ List.length (requests (record (retry_events rq n b) w))
     = (List.length (requests w) + n)%nat.
Proof.
  split; [reflexivity|].
  rewrite requests_record, sent_in_retry_events, length_app, repeat_length. reflexivity.
Qed.

(** [_request] with [debug] bound, once the first [n] answers asked for a
    retry. *)
Lemma request_after_retries (self : MarketingPlatformClient) (method path : string)
    (params json_body : option dict) (max_retries : Z) (w : world) (d : bool) (n m : nat) :
  debug w = Some d ->
  Z.to_nat max_retries = (n + m)%nat ->
  answers_retryable w (request_of self method path params json_body) n ->
  _request self method path params json_body max_retries w
  = attempts m (request_of self method path params json_body) max_retries
      (backoff_after n 1)
      (record (retry_events (request_of self method path params json_body) n 1)
         (emit (debug_lines d (request_of self method path params json_body)) w)).
Proof.
  intros Hd Hm H.
  rewrite (request_prelude self method path params json_body max_retries w d Hd), Hm.
  apply attempts_after_retries. apply answers_retryable_emit. exact H.
Qed.

(** The history [_request] leaves after the debug lines, [n] retries and
    the events [es]. *)
Lemma history_after_retries (rq : http_request) (d : bool) (n : nat) (es : list event)
    (w : world) :
  record es (record (retry_events rq n 1) (emit (debug_lines d rq) w))
  = record (map Printed (debug_lines d rq)
            ++ flat_map (fun i => [Sent rq; Slept (Z.min (2 ^ Z.of_nat i) 30)]) (seq 0 n)
            ++ es) w.
Proof.
  unfold emit. rewrite !record_record, retry_events_delay. reflexivity.
Qed.

Lemma index_after_retries (rq : http_request) (d : bool) (n : nat) (w : world) :
  transport (record (retry_events rq n 1) (emit (debug_lines d rq) w)) = transport w
  /\ List.length (requests (record (retry_events rq n 1) (emit (debug_lines d rq) w)))
     = (List.length (requests w) + n)%nat.
Proof.
  destruct (requests_after_retries rq n 1 (emit (debug_lines d rq) w)) as [Ht Hl].
  destruct (transport_emit (debug_lines d rq) w) as [Ht' Hl'].
  rewrite Ht, Hl, Ht', Hl'. split; reflexivity.
Qed.

(** A success status whose body does not decode ends the run at once. *)
Lemma attempts_non_json (n : nat) (rq : http_request) (mr b : Z) (w : world)
    (r : http_response) :
  transport w (List.length (requests w)) rq = Responded r ->
  200 <= status_code r < 300 ->
  json r = None ->
  attempts (S n) rq mr b w
  = (Raise (MPError ("Non-JSON response from " ++ rq_url rq)), record [Sent rq] w).
Proof.
  intros Hr Hst Hj. first_attempt Hr.
  assert (E1 : (status_code r =? 429) = false) by (apply Z.eqb_neq; lia).
  assert (E2 : ((200 <=? status_code r) && (status_code r <? 300)) = true)
    by (apply andb_true_iff; split; [apply Z.leb_le | apply Z.ltb_lt]; lia).
  rewrite E1, E2, Hj. reflexivity.
Qed.

(** An exception of [session.request] leaves the loop as it is raised. *)
Lemma attempts_transport_error (n : nat) (rq : http_request) (mr b : Z) (w : world)
    (e : exn) :
  transport w (List.length (requests w)) rq = Failed e ->
  attempts (S n) rq mr b w = (Raise e, record [Sent rq] w).
Proof. intros Hr. first_attempt Hr. reflexivity. Qed.

(** A success with a JSON body on the first attempt. *)
Lemma attempts_success (n : nat) (rq : http_request) (mr b : Z) (w : world)
    (r : http_response) (j : value) :
  transport w (List.length (requests w)) rq = Responded r ->
  200 <= status_code r < 300 ->
  json r = Some j ->
  attempts (S n) rq mr b w = (Ok j, record [Sent rq] w).
Proof.
  intros Hr Hst Hj.
  apply (attempts_retry_then_ok 0 n rq mr b w r j); try assumption.
  - intros i Hi. lia.
  - rewrite Nat.add_0_r. exact Hr.
Qed.

(** X1: when each of the [max_retries] attempts is answered by 429 or by a
    status that is neither a success nor terminal, [_request] raises the
    exhausted-retries [MPError] naming the count and the URL, having sent the
    request [max_retries] times and slept after each answer, the last one
    included; with [max_retries] at most 0 it raises at once and sends
    nothing. *)
Theorem request_gives_up_after_max_retries (self : MarketingPlatformClient)
    (method path : string) (params json_body : option dict) (max_retries : Z)
    (w : world) (d : bool) :
  debug w = Some d ->
  answers_retryable w (request_of self method path params json_body)
    (Z.to_nat max_retries) ->
  _request self method path params json_body max_retries w
  = (Raise (MPError ("Failed after " ++ str_int max_retries ++ " attempts: "
                       ++ (base_url self ++ path))),
     record
       (map Printed (debug_lines d (request_of self method path params json_body))
        ++ flat_map (fun i => [Sent (request_of self method path params json_body);
                               Slept (Z.min (2 ^ Z.of_nat i) 30)])
             (seq 0 (Z.to_nat max_retries)))
       w).
Proof.
  intros Hd H.
  rewrite (request_after_retries self method path params json_body max_retries w d
             (Z.to_nat max_retries) 0 Hd (eq_sym (Nat.add_0_r _)) H).
  cbn [attempts]. unfold raise.
  rewrite <- (record_nil (record _ (emit _ w))), history_after_retries, app_nil_r.
  reflexivity.
Qed.

Lemma request_gives_up_after_max_retries_witness :
  _request demo_client "GET" "/Segments" None None 3
    (start_world (scripted [Responded too_many_requests; Responded bad_gateway;
                            Responded bad_gateway; Responded empty_object]))
  = (Raise (MPError "Failed after 3 attempts: https://api.mailmailmail.net/v2.0/Segments"),
     mk_world (Some false)
       (scripted [Responded too_many_requests; Responded bad_gateway;
                  Responded bad_gateway; Responded empty_object])
       [Sent (request_of demo_client "GET" "/Segments" None None); Slept 1;
        Sent (request_of demo_client "GET" "/Segments" None None); Slept 2;
        Sent (request_of demo_client "GET" "/Segments" None None); Slept 4]).
Proof.
  apply (request_gives_up_after_max_retries demo_client "GET" "/Segments" None None 3
           (start_world (scripted [Responded too_many_requests; Responded bad_gateway;
                                   Responded bad_gateway; Responded empty_object]))
           false).
  - reflexivity.
  - intros i Hi. destruct i as [|[|[|i]]].
    + exists too_many_requests. split; reflexivity.
    + exists bad_gateway. split; reflexivity.
    + exists bad_gateway. split; reflexivity.
    + simpl in Hi. lia.
Defined.

(** X2: the answers that are retried are not only the 429 ones: after fewer
    than [max_retries] answers that are each 429 or a status outside the
    success range and outside the terminal codes (a 502, say), a success
    with a JSON body is returned decoded, the delays before the retries
    being 1, 2, 4, ... up to 30 whatever the retried statuses were. *)
Theorem request_retries_any_transient_status (self : MarketingPlatformClient)
    (method path : string) (params json_body : option dict) (max_retries : Z)
    (w : world) (d : bool) (n : nat) (r : http_response) (j : value) :
  debug w = Some d ->
  Z.of_nat n < max_retries ->
  answers_retryable w (request_of self method path params json_body) n ->
  transport w (List.length (requests w) + n)%nat
    (request_of self method path params json_body) = Responded r ->
  200 <= status_code r < 300 ->
  json r = Some j ->
  _request self method path params json_body max_retries w
  = (Ok j,
     record
       (map Printed (debug_lines d (request_of self method path params json_body))
        ++ flat_map (fun i => [Sent (request_of self method path params json_body);
                               Slept (Z.min (2 ^ Z.of_nat i) 30)])
             (seq 0 n)
        ++ [Sent (request_of self method path params json_body)])
       w).
Proof.
  intros Hd Hn H Hr Hst Hj.
  assert (Hm : Z.to_nat max_retries = (n + S (Z.to_nat max_retries - S n))%nat) by lia.
  rewrite (request_after_retries self method path params json_body max_retries w d
             n _ Hd Hm H).
  destruct (index_after_retries (request_of self method path params json_body) d n w)
    as [Ht Hl].
  rewrite (attempts_success _ _ _ _ _ r j).
  - apply f_equal. apply history_after_retries.
  - rewrite Ht, Hl. exact Hr.
  - exact Hst.
  - exact Hj.
Qed.

Lemma request_retries_any_transient_status_witness :
  _request demo_client "GET" "/Segments" None None 5
    (start_world (scripted [Responded bad_gateway; Responded too_many_requests;
                            Responded empty_object]))
  = (Ok (VDict []),
     mk_world (Some false)
       (scripted [Responded bad_gateway; Responded too_many_requests;
                  Responded empty_object])
       [Sent (request_of demo_client "GET" "/Segments" None None); Slept 1;
        Sent (request_of demo_client "GET" "/Segments" None None); Slept 2;
        Sent (request_of demo_client "GET" "/Segments" None None)]).
Proof.
  apply (request_retries_any_transient_status demo_client "GET" "/Segments" None None 5
           (start_world (scripted [Responded bad_gateway; Responded too_many_requests;
                                   Responded empty_object]))
           false 2 empty_object (VDict [])).
  - reflexivity.
  - simpl; lia.
  - intros i Hi. destruct i as [|[|i]].
    + exists bad_gateway. split; reflexivity.
    + exists too_many_requests. split; reflexivity.
    + lia.
  - reflexivity.
  - simpl; lia.
  - reflexivity.
Defined.

(** X3: a success status whose body does not decode as JSON is not retried:
    at whatever attempt it comes, [_request] raises the non-JSON [MPError]
    naming the URL and sends nothing more. *)
Theorem request_non_json_success_fails (self : MarketingPlatformClient)
    (method path : string) (params json_body : option dict) (max_retries : Z)
    (w : world) (d : bool) (n : nat) (r : http_response) :
  debug w = Some d ->
  Z.of_nat n < max_retries ->
  answers_retryable w (request_of self method path params json_body) n ->
  transport w (List.length (requests w) + n)%nat
    (request_of self method path params json_body) = Responded r ->
  200 <= status_code r < 300 ->
  json r = None ->
  _request self method path params json_body max_retries w
  = (Raise (MPError ("Non-JSON response from " ++ (base_url self ++ path))),
     record
       (map Printed (debug_lines d (request_of self method path params json_body))
        ++ flat_map (fun i => [Sent (request_of self method path params json_body);
                               Slept (Z.min (2 ^ Z.of_nat i) 30)])
             (seq 0 n)
        ++ [Sent (request_of self method path params json_body)])
       w).
Proof.
  intros Hd Hn H Hr Hst Hj.
  assert (Hm : Z.to_nat max_retries = (n + S (Z.to_nat max_retries - S n))%nat) by lia.
  rewrite (request_after_retries self method path params json_body max_retries w d
             n _ Hd Hm H).
  destruct (index_after_retries (request_of self method path params json_body) d n w)
    as [Ht Hl].
  rewrite (attempts_non_json _ _ _ _ _ r).
  - apply f_equal. apply history_after_retries.
  - rewrite Ht, Hl. exact Hr.
  - exact Hst.
  - exact Hj.
Qed.

Lemma request_non_json_success_fails_witness :
  _request demo_client "GET" "/Lists" None None 5
    (start_world (scripted [Responded too_many_requests; Responded html_page]))
  = (Raise (MPError "Non-JSON response from https://api.mailmailmail.net/v2.0/Lists"),
     mk_world (Some false) (scripted [Responded too_many_requests; Responded html_page])
       [Sent (request_of demo_client "GET" "/Lists" None None); Slept 1;
        Sent (request_of demo_client "GET" "/Lists" None None)]).
Proof.
  apply (request_non_json_success_fails demo_client "GET" "/Lists" None None 5
           (start_world (scripted [Responded too_many_requests; Responded html_page]))
           false 1 html_page).
  - reflexivity.
  - simpl; lia.
  - intros i Hi. destruct i as [|i]; [|lia].
    exists too_many_requests. split; reflexivity.
  - reflexivity.
  - simpl; lia.
  - reflexivity.
Defined.

(** X4: the loop has no handler around [session.request]: an exception of
    the transport (no connection, a timeout) is not retried and not turned
    into an [MPError]; at whatever attempt it is raised it leaves [_request]
    as it is, after that one request and without a further sleep. *)
Theorem request_transport_exception_propagates (self : MarketingPlatformClient)
    (method path : string) (params json_body : option dict) (max_retries : Z)
    (w : world) (d : bool) (n : nat) (e : exn) :
  debug w = Some d ->
  Z.of_nat n < max_retries ->
  answers_retryable w (request_of self method path params json_body) n ->
  transport w (List.length (requests w) + n)%nat
    (request_of self method path params json_body) = Failed e ->
  _request self method path params json_body max_retries w
  = (Raise e,
     record
       (map Printed (debug_lines d (request_of self method path params json_body))
        ++ flat_map (fun i => [Sent (request_of self method path params json_body);
                               Slept (Z.min (2 ^ Z.of_nat i) 30)])
             (seq 0 n)
        ++ [Sent (request_of self method path params json_body)])
       w).
Proof.
  intros Hd Hn H Hr.
  assert (Hm : Z.to_nat max_retries = (n + S (Z.to_nat max_retries - S n))%nat) by lia.
  rewrite (request_after_retries self method path params json_body max_retries w d
             n _ Hd Hm H).
  destruct (index_after_retries (request_of self method path params json_body) d n w)
    as [Ht Hl].
  rewrite (attempts_transport_error _ _ _ _ _ e).
  - apply f_equal. apply history_after_retries.
  - rewrite Ht, Hl. exact Hr.
Qed.

Lemma request_transport_exception_propagates_witness :
  _request demo_client "GET" "/Lists" None None 5 (start_world (scripted []))
  = (Raise (RequestException "Connection refused"),
     mk_world (Some false) (scripted [])
       [Sent (request_of demo_client "GET" "/Lists" None None)]).
Proof.
  apply (request_transport_exception_propagates demo_client "GET" "/Lists" None None 5
           (start_world (scripted [])) false 0 (RequestException "Connection refused")).
  - reflexivity.
  - simpl; lia.
  - intros i Hi. lia.
  - reflexivity.
Defined.

(** X5: a terminal status ends the run at whatever attempt it comes: after
    answers that were retried, an answer with status 400, 401, 403, 404, 409
    or 500 makes [_request] raise the [MPError] with that status and body,
    and the attempts left are not used. *)
Theorem request_terminal_status_after_retries (self : MarketingPlatformClient)
    (method path : string) (params json_body : option dict) (max_retries : Z)
    (w : world) (d : bool) (n : nat) (r : http_response) :
  debug w = Some d ->
  Z.of_nat n < max_retries ->
  answers_retryable w (request_of self method path params json_body) n ->
  transport w (List.length (requests w) + n)%nat
    (request_of self method path params json_body) = Responded r ->
  In (status_code r) terminal_codes ->
  _request self method path params json_body max_retries w
  = (Raise (MPError (str_int (status_code r) ++ " error from "
                       ++ (base_url self ++ path) ++ ": " ++ text r)),
     record
       (map Printed (debug_lines d (request_of self method path params json_body))
        ++ flat_map (fun i => [Sent (request_of self method path params json_body);
                               Slept (Z.min (2 ^ Z.of_nat i) 30)])
             (seq 0 n)
        ++ [Sent (request_of self method path params json_body)])
       w).
Proof.
  intros Hd Hn H Hr Hin.
  assert (Hm : Z.to_nat max_retries = (n + S (Z.to_nat max_retries - S n))%nat) by lia.
  rewrite (request_after_retries self method path params json_body max_retries w d
             n _ Hd Hm H).
  destruct (index_after_retries (request_of self method path params json_body) d n w)
    as [Ht Hl].
  rewrite (attempts_terminal _ _ _ _ _ r).
  - apply f_equal. apply history_after_retries.
  - rewrite Ht, Hl. exact Hr.
  - exact Hin.
Qed.

Lemma request_terminal_status_after_retries_witness :
  _request demo_client "GET" "/Lists" None None 5
    (start_world (scripted [Responded bad_gateway; Responded not_found]))
  = (Raise (MPError "404 error from https://api.mailmailmail.net/v2.0/Lists: Not Found"),
     mk_world (Some false) (scripted [Responded bad_gateway; Responded not_found])
       [Sent (request_of demo_client "GET" "/Lists" None None); Slept 1;
        Sent (request_of demo_client "GET" "/Lists" None None)]).
Proof.
  apply (request_terminal_status_after_retries demo_client "GET" "/Lists" None None 5
           (start_world (scripted [Responded bad_gateway; Responded not_found]))
           false 1 not_found).
  - reflexivity.
  - simpl; lia.
  - intros i Hi. destruct i as [|i]; [|lia].
    exists bad_gateway. split; reflexivity.
  - reflexivity.
  - simpl. right; right; right; left; reflexivity.
Defined.

(** Whatever the answers are, a run of [attempts n] leaves a history with
    no line printed, the one request sent [k] times and the first [j] delays
    of the backoff slept, where [j <= k <= n] and [k <= j + 1]. *)
Lemma attempts_history (n : nat) (rq : http_request) (mr : Z) :
  forall (b : Z) (w : world) (res : result value) (w' : world),
    attempts n rq mr b w = (res, w') ->
    exists es k j,
      w' = record es w
      /\ (j <= k <= n)%nat /\ (k <= S j)%nat
      /\ sent_in es = repeat rq k
      /\ slept_in es = backoff_seq j b
      /\ printed_in es = [].
Proof.
  induction n as [|n IH]; intros b w res w' Hrun.
  - cbn in Hrun. injection Hrun as _ <-. exists [], O, O. rewrite record_nil.
    repeat split; lia.
  - rewrite attempts_S in Hrun. unfold bind at 1 in Hrun.
    unfold session_request in Hrun.
    assert (Hone : forall x : result value,
               (x, record [Sent rq] w) = (res, w') ->
               exists es k j, w' = record es w /\ (j <= k <= S n)%nat /\ (k <= S j)%nat
                 /\ sent_in es = repeat rq k /\ slept_in es = backoff_seq j b
                 /\ printed_in es = []).
    { intros x Hx. injection Hx as _ <-. exists [Sent rq], 1%nat, O.
      repeat split; lia. }
    assert (Hretry :
               (time_sleep b ;; attempts n rq mr (Z.min (b * 2) 30)) (record [Sent rq] w)
               = (res, w') ->
               exists es k j, w' = record es w /\ (j <= k <= S n)%nat /\ (k <= S j)%nat
                 /\ sent_in es = repeat rq k /\ slept_in es = backoff_seq j b
                 /\ printed_in es = []).
    { unfold bind, time_sleep. cbv beta iota. rewrite record_record. intros Hx.
      destruct (IH _ _ _ _ Hx) as (es & k & j & -> & Hk & Hkj & Hsent & Hslept & Hprint).
      exists (([Sent rq] ++ [Slept b]) ++ es)%list, (S k), (S j).
      rewrite record_record.
      split; [reflexivity|]. split; [lia|]. split; [lia|].
      rewrite sent_in_app, slept_in_app, printed_in_app, Hsent, Hslept, Hprint.
      repeat split; reflexivity. }
    destruct (transport w (List.length (requests w)) rq) as [r|e]; [|exact (Hone _ Hrun)].
    destruct (status_code r =? 429); [exact (Hretry Hrun)|].
    destruct ((200 <=? status_code r) && (status_code r <? 300)).
    { destruct (json r); exact (Hone _ Hrun). }
    destruct (is_terminal (status_code r)); [exact (Hone _ Hrun) | exact (Hretry Hrun)].
Qed.

Lemma delay_bounds (i : nat) : 1 <= delay i <= 30.
Proof.
  unfold delay. assert (0 < 2 ^ Z.of_nat i) by (apply Z.pow_pos_nonneg; lia). lia.
Qed.

(** The history of any call of [_request] with [debug] bound, read as
    separate logs. *)
Lemma request_history_shape (self : MarketingPlatformClient)
    (method path : string) (params json_body : option dict) (max_retries : Z)
    (w : world) (d : bool) :
  debug w = Some d ->
  exists k j,
    (j <= k <= Z.to_nat max_retries)%nat /\ (k <= S j)%nat
    /\ requests (snd (_request self method path params json_body max_retries w))
       = (requests w ++ repeat (request_of self method path params json_body) k)%list
    /\ sleeps (snd (_request self method path params json_body max_retries w))
       = (sleeps w ++ map delay (seq 0 j))%list.
Proof.
  intros Hd.
  rewrite (request_prelude self method path params json_body max_retries w d Hd).
  destruct (attempts (Z.to_nat max_retries)
              (request_of self method path params json_body) max_retries 1
              (emit (debug_lines d (request_of self method path params json_body)) w))
    as [res w'] eqn:E.
  destruct (attempts_history _ _ _ _ _ _ _ E)
    as (es & k & j & -> & Hk & Hkj & Hsent & Hslept & _).
  exists k, j. split; [exact Hk|]. split; [exact Hkj|]. cbn [snd]. unfold emit.
  rewrite !requests_record, !sleeps_record, sent_in_printed, slept_in_printed,
    !app_nil_r, Hsent, Hslept, backoff_seq_delay.
  split; reflexivity.
Qed.

(** X6: whatever the remote end answers, a call of [_request] sends nothing
    but its one request, at most [max_retries] times (not at all when
    [max_retries] is 0 or less); it sleeps only between or after requests,
    never more often than it sent; the delays are the first ones of 1, 2, 4,
    8, 16, 30, 30, ..., each between 1 and 30. *)
Theorem request_history_bounds (self : MarketingPlatformClient)
    (method path : string) (params json_body : option dict) (max_retries : Z)
    (w : world) (d : bool) :
  debug w = Some d ->
  exists k j,
    (j <= k <= Z.to_nat max_retries)%nat /\ (k <= S j)%nat
    /\ requests (snd (_request self method path params json_body max_retries w))
       = (requests w ++ repeat (request_of self method path params json_body) k)%list
    /\ sleeps (snd (_request self method path params json_body max_retries w))
       = (sleeps w ++ map (fun i => Z.min (2 ^ Z.of_nat i) 30) (seq 0 j))%list
    /\ Forall (fun t => 1 <= t <= 30)
         (map (fun i => Z.min (2 ^ Z.of_nat i) 30) (seq 0 j)).
Proof.
  intros Hd.
  destruct (request_history_shape self method path params json_body max_retries w d Hd)
    as (k & j & Hk & Hkj & Hq & Hs).
  exists k, j. split; [exact Hk|]. split; [exact Hkj|].
  split; [exact Hq|]. split; [exact Hs|].
  apply Forall_forall. intros t Ht. apply in_map_iff in Ht.
  destruct Ht as (i & <- & _). apply delay_bounds.
Qed.

Lemma request_history_bounds_witness :
  exists k j,
    (j <= k <= Z.to_nat 5)%nat /\ (k <= S j)%nat
    /\ requests (snd (_request demo_client "GET" "/Lists" None None 5
                        (start_world (always bad_gateway))))
       = (requests (start_world (always bad_gateway))
          ++ repeat (request_of demo_client "GET" "/Lists" None None) k)%list
    /\ sleeps (snd (_request demo_client "GET" "/Lists" None None 5
                      (start_world (always bad_gateway))))
       = (sleeps (start_world (always bad_gateway))
          ++ map (fun i => Z.min (2 ^ Z.of_nat i) 30) (seq 0 j))%list
    /\ Forall (fun t => 1 <= t <= 30)
         (map (fun i => Z.min (2 ^ Z.of_nat i) 30) (seq 0 j)).
Proof.
  apply (request_history_bounds demo_client "GET" "/Lists" None None 5
           (start_world (always bad_gateway)) false).
  reflexivity.
Defined.

(** X7: with the default of five attempts, one call of an operation sends
    at most five requests and sleeps at most 1 + 2 + 4 + 8 + 16 = 31 in all,
    whatever the remote end answers. *)
Theorem request_default_cost (self : MarketingPlatformClient)
    (method path : string) (params json_body : option dict) (w : world) (d : bool) :
  debug w = Some d ->
  exists k slept,
    (k <= 5)%nat
    /\ requests (snd (request self method path params json_body w))
       = (requests w ++ repeat (request_of self method path params json_body) k)%list
    /\ sleeps (snd (request self method path params json_body w))
       = (sleeps w ++ slept)%list
    /\ 0 <= total slept <= 31.
Proof.
  intros Hd. unfold request.
  destruct (request_history_shape self method path params json_body
              default_max_retries w d Hd) as (k & j & Hk & _ & Hq & Hs).
  change (Z.to_nat default_max_retries) with 5%nat in Hk.
  exists k, (map delay (seq 0 j)).
  split; [lia|]. split; [exact Hq|]. split; [exact Hs|].
  assert (Hj : (j <= 5)%nat) by lia.
  destruct j as [|[|[|[|[|[|j]]]]]]; try (vm_compute; split; discriminate).
  lia.
Qed.

Lemma request_default_cost_witness :
  exists k slept,
    (k <= 5)%nat
    /\ requests (snd (request demo_client "GET" "/Lists" None None
                        (start_world (always too_many_requests))))
       = (requests (start_world (always too_many_requests))
          ++ repeat (request_of demo_client "GET" "/Lists" None None) k)%list
    /\ sleeps (snd (request demo_client "GET" "/Lists" None None
                      (start_world (always too_many_requests))))
       = (sleeps (start_world (always too_many_requests)) ++ slept)%list
    /\ 0 <= total slept <= 31.
Proof.
  apply (request_default_cost demo_client "GET" "/Lists" None None
           (start_world (always too_many_requests)) false).
  reflexivity.
Defined.

Lemma printed_in_printed (outs : list output) : printed_in (map Printed outs) = outs.
Proof. induction outs as [|o outs IH]; [reflexivity|]. cbn. rewrite IH. reflexivity. Qed.

(** X8: the debug lines are printed once per call of [_request], before the
    first attempt, and the loop prints nothing: however many attempts are
    made, the output of a call is no line when [debug] is false and, when it
    is true, the request line, then the parameters if there are any, then
    the body if there is one. *)
Theorem request_prints_debug_lines_once (self : MarketingPlatformClient)
    (method path : string) (params json_body : option dict) (max_retries : Z)
    (w : world) (d : bool) :
  debug w = Some d ->
  stdout (snd (_request self method path params json_body max_retries w))
  = (stdout w
     ++ (if d then
           Line ("Request: " ++ method ++ " " ++ (base_url self ++ path))
           :: (if opt_dict_truthy params
               then [LineRepr "Params: " (match params with Some p => p | None => [] end)]
               else [])
           ++ (if opt_dict_truthy json_body
               then [LineJson "Body: "
                       (VDict (match json_body with Some b => b | None => [] end)) true]
               else [])
         else []))%list.
Proof.
  intros Hd.
  rewrite (request_prelude self method path params json_body max_retries w d Hd).
  destruct (attempts (Z.to_nat max_retries)
              (request_of self method path params json_body) max_retries 1
              (emit (debug_lines d (request_of self method path params json_body)) w))
    as [res w'] eqn:E.
  destruct (attempts_history _ _ _ _ _ _ _ E) as (es & k & j & -> & _ & _ & _ & _ & Hp).
  cbn [snd]. unfold emit.
  rewrite !stdout_record, Hp, app_nil_r, printed_in_printed. reflexivity.
Qed.

Lemma request_prints_debug_lines_once_witness :
  stdout (snd (_request demo_client "DELETE" "/Segments" (Some [("segmentid", VInt 7)])
                 None 5
                 (mk_world (Some true) (scripted [Responded too_many_requests;
                                                  Responded empty_object]) [])))
  = [Line "Request: DELETE https://api.mailmailmail.net/v2.0/Segments";
     LineRepr "Params: " [("segmentid", VInt 7)]].
Proof.
  apply (request_prints_debug_lines_once demo_client "DELETE" "/Segments"
           (Some [("segmentid", VInt 7)]) None 5
           (mk_world (Some true) (scripted [Responded too_many_requests;
                                            Responded empty_object]) []) true).
  reflexivity.
Defined.

(** X9: [debug] is bound by [main] only.  While it is unbound, as in a
    program that imports the module and calls the client itself, every call
    that reaches [_request] raises [NameError] before anything is sent, and
    [iter_lists] yields nothing and raises it on its first step. *)
Theorem request_needs_debug_bound (self : MarketingPlatformClient)
    (method path : string) (params json_body : option dict) (max_retries : Z)
    (listid page_size : Z) (fuel : nat) (w : world) :
  debug w = None ->
  _request self method path params json_body max_retries w
  = (Raise (NameError "name 'debug' is not defined"), w)
  /\ iter_lists (S fuel) self listid page_size w
     = Some ([], Some (NameError "name 'debug' is not defined"), w).
Proof.
  intros Hd.
  assert (H : forall m p ps jb mr,
             _request self m p ps jb mr w
             = (Raise (NameError "name 'debug' is not defined"), w)).
  { intros. unfold _request, bind, read_debug. rewrite Hd. reflexivity. }
  split; [apply H|].
  unfold iter_lists. cbn [iter_lists_from]. unfold get_lists, request.
  rewrite H. reflexivity.
Qed.

Lemma request_needs_debug_bound_witness :
  _request demo_client "GET" "/Lists" None None 5
    (boot_world (scripted [Responded page_one]))
  = (Raise (NameError "name 'debug' is not defined"),
     boot_world (scripted [Responded page_one]))
  /\ iter_lists 1 demo_client 0 100 (boot_world (scripted [Responded page_one]))
     = Some ([], Some (NameError "name 'debug' is not defined"),
             boot_world (scripted [Responded page_one])).
Proof.
  apply (request_needs_debug_bound demo_client "GET" "/Lists" None None 5 0 100 0
           (boot_world (scripted [Responded page_one]))).
  reflexivity.
Defined.

(** ** More on the pagination iterator *)

(** One step of the iterator on a page that is not empty and not shorter
    than [page_size]: its items, then the rest from the next offset. *)
Lemma iter_lists_from_step (self : MarketingPlatformClient) (listid page_size offset : Z)
    (w : world) (d : bool) (r : http_response) (pg : list value) (fuel : nat) :
  debug w = Some d ->
  transport w (List.length (requests w)) (lists_request self listid page_size offset)
  = Responded r ->
  page_response r pg ->
  pg <> [] ->
  page_size <= Z.of_nat (List.length pg) ->
  iter_lists_from (S fuel) self listid page_size offset w
  = match iter_lists_from fuel self listid page_size (offset + page_size)
            (record (map Printed
                       (debug_lines d (lists_request self listid page_size offset))
                     ++ [Sent (lists_request self listid page_size offset)]) w) with
    | None => None
    | Some (ys, fin, w2) => Some ((pg ++ ys)%list, fin, w2)
    end.
Proof.
  intros Hd Hr (Hst & kvs & Hj & Hdata) Hne Hlen.
  cbn [iter_lists_from].
  rewrite (get_lists_first_answer self listid page_size offset w d r _ Hd Hr Hst Hj).
  cbn [py_get]. rewrite Hdata.
  destruct pg as [|x xs]; [contradiction|].
  cbn [or_empty_list truthy negb py_iter py_len].
  assert (Hge : (Z.of_nat (List.length (x :: xs)) <? page_size) = false)
    by (apply Z.ltb_ge; lia).
  rewrite Hge. reflexivity.
Qed.

(** X10: the loop of [iter_lists] has no bound of its own.  Against a remote
    end whose every answer is a page that is not empty and has [page_size]
    items or more (a [page_size] of 0 or less makes every non-empty page
    such a page), the iterator never stops: no amount of fuel brings it to
    an end. *)
Theorem iter_lists_never_stops_without_short_page (self : MarketingPlatformClient)
    (listid page_size : Z) (w : world) (d : bool) :
  debug w = Some d ->
  (forall n rq, exists r pg,
      transport w n rq = Responded r /\ page_response r pg
      /\ pg <> [] /\ page_size <= Z.of_nat (List.length pg)) ->
  forall fuel, iter_lists fuel self listid page_size w = None.
Proof.
  intros Hd Hall fuel. unfold iter_lists. generalize 0 as offset.
  revert w Hd Hall. induction fuel as [|fuel IH]; intros w Hd Hall offset; [reflexivity|].
  destruct (Hall (List.length (requests w)) (lists_request self listid page_size offset))
    as (r & pg & Hr & Hpage & Hne & Hlen).
  rewrite (iter_lists_from_step self listid page_size offset w d r pg fuel
             Hd Hr Hpage Hne Hlen).
  rewrite IH; [reflexivity | exact Hd | exact Hall].
Qed.

Lemma iter_lists_never_stops_without_short_page_witness :
  iter_lists 50 demo_client 0 2 (start_world (always page_one)) = None.
Proof.
  refine (iter_lists_never_stops_without_short_page demo_client 0 2
            (start_world (always page_one)) false _ _ 50%nat).
  - reflexivity.
  - intros n rq. exists page_one, page_one_items.
    split; [reflexivity|]. split.
    + split; [simpl; lia|]. eexists; split; reflexivity.
    + split; [discriminate | simpl; lia].
Defined.

(** The history of [n] listing calls each answered at once, from [offset]. *)
Lemma iter_lists_from_full_pages (self : MarketingPlatformClient) (listid page_size : Z)
    (d : bool) :
  forall (full : list (list value)) (offset : Z) (w : world) (fuel : nat),
    debug w = Some d ->
    Forall (fun pg => pg <> [] /\ page_size <= Z.of_nat (List.length pg)) full ->
    (forall k pg, nth_error full k = Some pg ->
       exists r,
         transport w (List.length (requests w) + k)%nat
           (lists_request self listid page_size (offset + Z.of_nat k * page_size))
         = Responded r
         /\ page_response r pg) ->
    iter_lists_from (List.length full + fuel) self listid page_size offset w
    = match iter_lists_from fuel self listid page_size
              (offset + Z.of_nat (List.length full) * page_size)
              (record
                 (flat_map
                    (fun k =>
                       (map Printed
                          (debug_lines d
                             (lists_request self listid page_size
                                (offset + Z.of_nat k * page_size)))
                        ++ [Sent (lists_request self listid page_size
                                    (offset + Z.of_nat k * page_size))])%list)
                    (seq 0 (List.length full)))
                 w) with
      | None => None
      | Some (ys, fin, w2) => Some ((List.concat full ++ ys)%list, fin, w2)
      end.
Proof.
  induction full as [|pg full IH]; intros offset w fuel Hd Hfull Hpages.
  - cbn [List.length Nat.add seq flat_map List.concat Z.of_nat].
    rewrite Z.mul_0_l, Z.add_0_r, record_nil.
    destruct (iter_lists_from fuel self listid page_size offset w) as [[[ys fin] w2]|];
      reflexivity.
  - destruct (Hpages O pg eq_refl) as (r & Hr & Hpage).
    rewrite Nat.add_0_r in Hr.
    change (Z.of_nat 0) with 0 in Hr. rewrite Z.mul_0_l, Z.add_0_r in Hr.
    assert (Hpg : pg <> [] /\ page_size <= Z.of_nat (List.length pg))
      by (inversion Hfull; assumption).
    assert (Hrest : Forall (fun pg => pg <> [] /\ page_size <= Z.of_nat (List.length pg))
                      full) by (inversion Hfull; assumption).
    destruct (after_listing_call (lists_request self listid page_size offset)
                (debug_lines d (lists_request self listid page_size offset)) w)
      as (Hd1 & Ht1 & Hlen1).
    change (List.length (pg :: full) + fuel)%nat with (S (List.length full + fuel)).
    rewrite (iter_lists_from_step self listid page_size offset w d r pg _
               Hd Hr Hpage (proj1 Hpg) (proj2 Hpg)).
    rewrite (IH (offset + page_size) _ fuel).
    + rewrite record_record. cbn [List.length].
      change (seq 0 (S (List.length full))) with (O :: seq 1 (List.length full)).
      cbn [flat_map]. change (Z.of_nat 0) with 0. rewrite Z.mul_0_l, Z.add_0_r.
      rewrite <- seq_shift, flat_map_after_map.
      replace (offset + page_size + Z.of_nat (List.length full) * page_size)
        with (offset + Z.of_nat (S (List.length full)) * page_size)
        by (rewrite Nat2Z.inj_succ; ring).
      rewrite (flat_map_ext
                 (fun x =>
                    (map Printed
                       (debug_lines d
                          (lists_request self listid page_size
                             (offset + Z.of_nat (S x) * page_size)))
                     ++ [Sent (lists_request self listid page_size
                                 (offset + Z.of_nat (S x) * page_size))])%list)
                 (fun k =>
                    (map Printed
                       (debug_lines d
                          (lists_request self listid page_size
                             (offset + page_size + Z.of_nat k * page_size)))
                     ++ [Sent (lists_request self listid page_size
                                 (offset + page_size + Z.of_nat k * page_size))])%list)).
      * destruct (iter_lists_from fuel self listid page_size _ _) as [[[ys fin] w2]|];
          [|reflexivity].
        cbn [List.concat]. rewrite <- app_assoc. reflexivity.
      * intros k.
        replace (offset + Z.of_nat (S k) * page_size)
          with (offset + page_size + Z.of_nat k * page_size)
          by (rewrite Nat2Z.inj_succ; ring).
        reflexivity.
    + rewrite Hd1. exact Hd.
    + exact Hrest.
    + intros k pg' Hk. destruct (Hpages (S k) pg' Hk) as (r' & Hr' & Hpr').
      exists r'. split; [|exact Hpr'].
      rewrite Ht1, Hlen1. rewrite <- Hr'. f_equal; [lia|].
      f_equal. rewrite Nat2Z.inj_succ. ring.
Qed.

(** X11: the pages are yielded as they come.  When a listing call fails
    after pages that were each not empty and not short, [iter_lists] has
    yielded the items of those pages before it raises the exception of the
    call, and sends nothing after it; [list(...)], as [main] uses it, then
    raises the same exception and the items are lost. *)
Theorem iter_lists_raises_after_yielding (self : MarketingPlatformClient)
    (listid page_size : Z) (w w2 : world) (d : bool) (full : list (list value))
    (e : exn) (fuel : nat) :
  debug w = Some d ->
  Forall (fun pg => pg <> [] /\ page_size <= Z.of_nat (List.length pg)) full ->
  (forall k pg, nth_error full k = Some pg ->
     exists r,
       transport w (List.length (requests w) + k)%nat
         (lists_request self listid page_size (Z.of_nat k * page_size)) = Responded r
       /\ page_response r pg) ->
  get_lists self listid page_size (Z.of_nat (List.length full) * page_size)
    (record
       (flat_map
          (fun k =>
             (map Printed
                (debug_lines d (lists_request self listid page_size
                                  (Z.of_nat k * page_size)))
              ++ [Sent (lists_request self listid page_size (Z.of_nat k * page_size))])%list)
          (seq 0 (List.length full)))
       w)
  = (Raise e, w2) ->
  iter_lists (List.length full + S fuel) self listid page_size w
  = Some (List.concat full, Some e, w2)
  /\ list_iter_lists (List.length full + S fuel) self listid page_size w
     = Some (Raise e, w2).
Proof.
  intros Hd Hfull Hpages Hfail.
  assert (E : iter_lists (List.length full + S fuel) self listid page_size w
              = Some (List.concat full, Some e, w2)).
  { unfold iter_lists.
    rewrite (iter_lists_from_full_pages self listid page_size d full 0 w (S fuel)
               Hd Hfull Hpages).
    cbn [iter_lists_from]. cbn [Z.add]. rewrite Hfail, app_nil_r. reflexivity. }
  split; [exact E|]. unfold list_iter_lists. rewrite E. reflexivity.
Qed.

Lemma iter_lists_raises_after_yielding_witness :
  iter_lists (1 + 1) demo_client 0 2
    (start_world (scripted [Responded page_one; Responded not_found]))
  = Some (page_one_items,
          Some (MPError "404 error from https://api.mailmailmail.net/v2.0/Lists: Not Found"),
          mk_world (Some false) (scripted [Responded page_one; Responded not_found])
            [Sent (lists_request demo_client 0 2 0);
             Sent (lists_request demo_client 0 2 2)])
  /\ list_iter_lists (1 + 1) demo_client 0 2
       (start_world (scripted [Responded page_one; Responded not_found]))
     = Some (Raise (MPError
                      "404 error from https://api.mailmailmail.net/v2.0/Lists: Not Found"),
             mk_world (Some false) (scripted [Responded page_one; Responded not_found])
               [Sent (lists_request demo_client 0 2 0);
                Sent (lists_request demo_client 0 2 2)]).
Proof.
  apply (iter_lists_raises_after_yielding demo_client 0 2
           (start_world (scripted [Responded page_one; Responded not_found]))
           (mk_world (Some false) (scripted [Responded page_one; Responded not_found])
              [Sent (lists_request demo_client 0 2 0);
               Sent (lists_request demo_client 0 2 2)])
           false [page_one_items]
           (MPError "404 error from https://api.mailmailmail.net/v2.0/Lists: Not Found")
           0).
  - reflexivity.
  - constructor; [|constructor]. split; [discriminate | simpl; lia].
  - intros k pg Hk. destruct k as [|k].
    + injection Hk as <-. exists page_one. split; [reflexivity|].
      split; [simpl; lia|]. eexists; split; reflexivity.
    + destruct k; discriminate Hk.
  - reflexivity.
Defined.

(** X12: the iterator reads the page with [data.get]: when the body of the
    first answer decodes to anything but an object (an array, a string, a
    number, null), [iter_lists] yields nothing and raises [AttributeError]
    after that one request. *)
Theorem iter_lists_body_not_an_object (self : MarketingPlatformClient)
    (listid page_size : Z) (w : world) (d : bool) (r : http_response) (v : value)
    (fuel : nat) :
  debug w = Some d ->
  transport w (List.length (requests w)) (lists_request self listid page_size 0)
  = Responded r ->
  200 <= status_code r < 300 ->
  json r = Some v ->
  (forall kvs, v <> VDict kvs) ->
  iter_lists (S fuel) self listid page_size w
  = Some ([],
          Some (AttributeError ("'" ++ type_name v ++ "' object has no attribute 'get'")),
          record (map Printed (debug_lines d (lists_request self listid page_size 0))
                  ++ [Sent (lists_request self listid page_size 0)]) w).
Proof.
  intros Hd Hr Hst Hj Hv. unfold iter_lists. cbn [iter_lists_from].
  rewrite (get_lists_first_answer self listid page_size 0 w d r _ Hd Hr Hst Hj).
  destruct v; try reflexivity. exfalso. exact (Hv kvs eq_refl).
Qed.

Lemma iter_lists_body_not_an_object_witness :
  iter_lists 1 demo_client 0 100 (start_world (scripted [Responded array_body]))
  = Some ([], Some (AttributeError "'list' object has no attribute 'get'"),
          mk_world (Some false) (scripted [Responded array_body])
            [Sent (lists_request demo_client 0 100 0)]).
Proof.
  apply (iter_lists_body_not_an_object demo_client 0 100
           (start_world (scripted [Responded array_body])) false array_body (VList []) 0).
  - reflexivity.
  - reflexivity.
  - simpl; lia.
  - reflexivity.
  - intros kvs. discriminate.
Defined.

(** X13: only a falsy item collection counts as empty.  When the ["data"]
    entry of the first page is a number other than zero or the boolean true,
    [iter_lists] yields nothing and raises [TypeError], the value not being
    iterable. *)
Theorem iter_lists_data_not_iterable (self : MarketingPlatformClient)
    (listid page_size : Z) (w : world) (d : bool) (r : http_response) (kvs : dict)
    (v : value) (fuel : nat) :
  debug w = Some d ->
  transport w (List.length (requests w)) (lists_request self listid page_size 0)
  = Responded r ->
  200 <= status_code r < 300 ->
  json r = Some (VDict kvs) ->
  dict_get "data" kvs = Some v ->
  truthy v = true ->
  (exists n, v = VInt n) \/ (exists f, v = VFloat f) \/ v = VBool true ->
  iter_lists (S fuel) self listid page_size w
  = Some ([],
          Some (TypeError ("'" ++ type_name v ++ "' object is not iterable")),
          record (map Printed (debug_lines d (lists_request self listid page_size 0))
                  ++ [Sent (lists_request self listid page_size 0)]) w).
Proof.
  intros Hd Hr Hst Hj Hdata Htruthy Hv. unfold iter_lists. cbn [iter_lists_from].
  rewrite (get_lists_first_answer self listid page_size 0 w d r _ Hd Hr Hst Hj).
  cbn [py_get]. rewrite Hdata. unfold or_empty_list. rewrite Htruthy, Htruthy.
  destruct Hv as [[n ->]|[[f ->]| ->]]; reflexivity.
Qed.

Lemma iter_lists_data_not_iterable_witness :
  iter_lists 1 demo_client 0 100 (start_world (scripted [Responded data_is_number]))
  = Some ([], Some (TypeError "'int' object is not iterable"),
          mk_world (Some false) (scripted [Responded data_is_number])
            [Sent (lists_request demo_client 0 100 0)]).
Proof.
  apply (iter_lists_data_not_iterable demo_client 0 100
           (start_world (scripted [Responded data_is_number])) false data_is_number
           [("data", VInt 7)] (VInt 7) 0).
  - reflexivity.
  - reflexivity.
  - simpl; lia.
  - reflexivity.
  - reflexivity.
  - reflexivity.
  - left. exists 7. reflexivity.
Defined.

(** ** The client and the start of [main] *)

Lemma rstrip_slash_no_trailing (s : string) : ends_with_slash (rstrip_slash s) = false.
Proof.
  induction s as [|c s IH]; [reflexivity|].
  cbn [rstrip_slash]. destruct (rstrip_slash s) as [|c' r] eqn:E.
  - destruct (c =? "/")%char eqn:Ec; [reflexivity|]. cbn. exact Ec.
  - exact IH.
Qed.

Lemma rstrip_slash_decompose (s : string) :
  exists k, s = rstrip_slash s ++ slashes k.
Proof.
  induction s as [|c s (k & IH)]; [exists O; reflexivity|].
  cbn [rstrip_slash]. destruct (rstrip_slash s) as [|c' r] eqn:E.
  - destruct (c =? "/")%char eqn:Ec.
    + apply Ascii.eqb_eq in Ec. subst c. exists (S k). cbn. rewrite IH at 1. reflexivity.
    + exists k. cbn. rewrite IH at 1. reflexivity.
  - exists k. cbn. rewrite IH at 1. reflexivity.
Qed.

(** X14: with both credentials present, the constructor builds the client
    without touching the world; its base URL is the given one without its
    trailing slashes, so it never ends with a slash and a path that begins
    with one joins it with a single slash; the two credentials go into the
    session headers. *)
Theorem init_client_normalises_base_url (username token : option string) (base : string)
    (tmo : Z) (w : world) :
  opt_str_truthy username = true ->
  opt_str_truthy token = true ->
  exists c,
    init_client username token base tmo w = (Ok c, w)
    /\ ends_with_slash (base_url c) = false
    /\ (exists k, base = base_url c ++ slashes k)
    /\ dict_get "Apiusername" (headers c) = Some (opt_str_value username)
    /\ dict_get "Apitoken" (headers c) = Some (opt_str_value token)
    /\ timeout c = tmo.
Proof.
  intros Hu Ht. unfold init_client. rewrite Hu, Ht. cbn [negb orb].
  eexists. split; [reflexivity|]. cbn [base_url headers timeout].
  split; [apply rstrip_slash_no_trailing|].
  split; [apply rstrip_slash_decompose|].
  repeat split; reflexivity.
Qed.

Lemma init_client_normalises_base_url_witness :
  exists c,
    init_client (Some "alice") (Some "s3cret") "https://api.example.net/v2.0//" 30
      answer_once
    = (Ok c, answer_once)
    /\ ends_with_slash (base_url c) = false
    /\ (exists k, "https://api.example.net/v2.0//" = base_url c ++ slashes k)
    /\ dict_get "Apiusername" (headers c) = Some (opt_str_value (Some "alice"))
    /\ dict_get "Apitoken" (headers c) = Some (opt_str_value (Some "s3cret"))
    /\ timeout c = 30.
Proof.
  apply (init_client_normalises_base_url (Some "alice") (Some "s3cret")
           "https://api.example.net/v2.0//" 30 answer_once).
  - reflexivity.
  - reflexivity.
Defined.

(** X15: whatever the command, when the user name or the token is missing
    from the environment or empty, [main] binds [debug], raises the
    [ValueError] of the constructor and sends nothing; the script prints the
    error line and ends with status 0. *)
Theorem main_without_credentials (p : process) (fuel : nat) (w : world)
    (outs : list output) (a : args) :
  parse_args p (sys_argv_tail p) = (outs, Ok a) ->
  opt_str_truthy (environ p "MP_API_USERNAME") && opt_str_truthy (environ p "MP_API_TOKEN")
  = false ->
  main p None fuel w
  = Some (Raise (ValueError
                   "API username/token missing. Set MP_API_USERNAME and MP_API_TOKEN."),
          mk_world (Some (args_debug a)) (transport w) (trace w ++ map Printed outs))
  /\ script p fuel w
     = Some (mk_world (Some (args_debug a)) (transport w)
               (trace w ++ map Printed outs
                ++ [Printed (Line "Error: API username/token missing. Set MP_API_USERNAME and MP_API_TOKEN.")]),
             0).
Proof.
  intros Hparse Hcred.
  assert (E : main p None fuel w
              = Some (Raise (ValueError
                     "API username/token missing. Set MP_API_USERNAME and MP_API_TOKEN."),
                      mk_world (Some (args_debug a)) (transport w)
                        (trace w ++ map Printed outs))).
  { unfold main. rewrite Hparse. unfold bind, set_debug, init_client.
    apply andb_false_iff in Hcred.
    destruct Hcred as [H|H]; rewrite H; cbn [negb orb]; [reflexivity|].
    rewrite orb_true_r. reflexivity. }
  split; [exact E|]. unfold script. rewrite E. cbn [is_Exception str_exn].
  unfold print, record. cbn [fst snd debug transport trace].
  rewrite <- app_assoc. reflexivity.
Qed.

Lemma main_without_credentials_witness :
  main (demo_process (mk_args true (DfDelete 3)) (Some "alice") (Some "")) None 0
    (boot_world (scripted []))
  = Some (Raise (ValueError
                   "API username/token missing. Set MP_API_USERNAME and MP_API_TOKEN."),
          mk_world (Some true) (scripted []) [])
  /\ script (demo_process (mk_args true (DfDelete 3)) (Some "alice") (Some "")) 0
       (boot_world (scripted []))
     = Some (mk_world (Some true) (scripted [])
               [Printed (Line "Error: API username/token missing. Set MP_API_USERNAME and MP_API_TOKEN.")],
             0).
Proof.
  apply (main_without_credentials
           (demo_process (mk_args true (DfDelete 3)) (Some "alice") (Some "")) 0
           (boot_world (scripted [])) [] (mk_args true (DfDelete 3))).
  - reflexivity.
  - reflexivity.
Defined.

(** ** The field arguments of the command line *)

Lemma split_first_eq_some (s k v : string) :
  split_first_eq s = Some (k, v) -> s = k ++ "=" ++ v /\ has_eq k = false.
Proof.
  revert k v. induction s as [|c s IH]; intros k v H; [discriminate|].
  cbn [split_first_eq] in H. destruct (c =? "=")%char eqn:Ec.
  - injection H as <- <-. apply Ascii.eqb_eq in Ec. subst c. split; reflexivity.
  - destruct (split_first_eq s) as [[k' v']|]; [|discriminate].
    injection H as <- <-. destruct (IH k' v' eq_refl) as [-> Hk].
    split; [reflexivity|]. cbn [has_eq]. rewrite Ec, Hk. reflexivity.
Qed.

Lemma split_first_eq_none (s : string) :
  split_first_eq s = None <-> has_eq s = false.
Proof.
  induction s as [|c s IH]; [split; reflexivity|].
  cbn [split_first_eq has_eq]. destruct (c =? "=")%char; cbn [orb].
  - split; discriminate.
  - destruct (split_first_eq s) as [[k v]|].
    + split; [discriminate|]. intros H. apply IH in H. discriminate.
    + split; [intros _; apply IH; reflexivity | reflexivity].
Qed.

Lemma lstrip_no_leading (s : string) : starts_with_space (lstrip s) = false.
Proof.
  induction s as [|c s IH]; [reflexivity|].
  cbn [lstrip]. destruct (is_space c) eqn:E; [exact IH | cbn; exact E].
Qed.

Lemma rstrip_no_trailing (s : string) : ends_with_space (rstrip s) = false.
Proof.
  induction s as [|c s IH]; [reflexivity|].
  cbn [rstrip]. destruct (rstrip s) as [|c' r] eqn:E.
  - destruct (is_space c) eqn:Ec; [reflexivity | cbn; exact Ec].
  - exact IH.
Qed.

Lemma rstrip_keeps_start (s : string) :
  starts_with_space s = false -> starts_with_space (rstrip s) = false.
Proof.
  destruct s as [|c s]; [reflexivity|]. cbn [starts_with_space rstrip]. intros Hc.
  destruct (rstrip s); [rewrite Hc|]; cbn; exact Hc.
Qed.

Lemma strip_no_edge_space (s : string) :
  starts_with_space (strip s) = false /\ ends_with_space (strip s) = false.
Proof.
  unfold strip. split; [apply rstrip_keeps_start, lstrip_no_leading|].
  apply rstrip_no_trailing.
Qed.

(** X16: when every item holds an equals sign, [_parse_fields] succeeds and
    gives one entry per item, in order: the item is cut at its first equals
    sign, the field id is the part before it without the white space around
    it, and the value is all that follows, further equals signs and spaces
    included. *)
Theorem parse_fields_cuts_at_first_equals (pairs : list string) :
  Forall (fun item => has_eq item = true) pairs ->
  exists out,
    _parse_fields (Some pairs) = Ok out
    /\ Forall2
         (fun item entry =>
            exists k v,
              item = k ++ "=" ++ v /\ has_eq k = false
              /\ entry = VDict [("fieldid", VStr (strip k)); ("field_value", VStr v)]
              /\ starts_with_space (strip k) = false
              /\ ends_with_space (strip k) = false)
         pairs out.
Proof.
  cbn [_parse_fields]. induction pairs as [|item pairs IH]; intros Hall.
  - exists []. split; [reflexivity | constructor].
  - assert (Hitem : has_eq item = true) by (inversion Hall; assumption).
    assert (Hrest : Forall (fun item => has_eq item = true) pairs)
      by (inversion Hall; assumption).
    destruct (IH Hrest) as (out & Hout & Hentries).
    cbn [parse_field_items].
    destruct (split_first_eq item) as [[k v]|] eqn:E.
    + rewrite Hout. eexists. split; [reflexivity|].
      constructor; [|exact Hentries].
      destruct (split_first_eq_some item k v E) as [Hcut Hk].
      destruct (strip_no_edge_space k) as [H1 H2].
      exists k, v. repeat split; assumption.
    + apply split_first_eq_none in E. rewrite E in Hitem. discriminate.
Qed.

Lemma parse_fields_cuts_at_first_equals_witness :
  exists out,
    _parse_fields (Some [" 2 =Jane = Doe "; "7="]) = Ok out
    /\ Forall2
         (fun item entry =>
            exists k v,
              item = k ++ "=" ++ v /\ has_eq k = false
              /\ entry = VDict [("fieldid", VStr (strip k)); ("field_value", VStr v)]
              /\ starts_with_space (strip k) = false
              /\ ends_with_space (strip k) = false)
         [" 2 =Jane = Doe "; "7="] out.
Proof.
  apply (parse_fields_cuts_at_first_equals [" 2 =Jane = Doe "; "7="]).
  repeat constructor.
Defined.

(** X17: the first item without an equals sign stops [_parse_fields], the
    items before it having one: it raises the [ValueError] that quotes that
    item, whatever comes after it. *)
Theorem parse_fields_rejects_first_bad_item (good rest : list string) (bad : string) :
  Forall (fun item => has_eq item = true) good ->
  has_eq bad = false ->
  _parse_fields (Some (good ++ bad :: rest)%list)
  = Raise (ValueError ("Invalid --field '" ++ bad ++ "'. Use FIELDID=VALUE")).
Proof.
  intros Hgood Hbad. cbn [_parse_fields].
  induction good as [|item good IH].
  - change ([] ++ bad :: rest)%list with (bad :: rest). cbn [parse_field_items].
    apply split_first_eq_none in Hbad. rewrite Hbad. reflexivity.
  - assert (Hitem : has_eq item = true) by (inversion Hgood; assumption).
    assert (Hrest : Forall (fun item => has_eq item = true) good)
      by (inversion Hgood; assumption).
    change ((item :: good) ++ bad :: rest)%list with (item :: (good ++ bad :: rest))%list.
    cbn [parse_field_items]. rewrite (IH Hrest).
    destruct (split_first_eq item) as [[k v]|] eqn:E; [reflexivity|].
    apply split_first_eq_none in E. rewrite E in Hitem. discriminate.
Qed.

Lemma parse_fields_rejects_first_bad_item_witness :
  _parse_fields (Some (["2=Jane"] ++ "Helsinki" :: ["also bad"; "7=x"])%list)
  = Raise (ValueError ("Invalid --field '" ++ "Helsinki" ++ "'. Use FIELDID=VALUE")).
Proof.
  apply (parse_fields_rejects_first_bad_item ["2=Jane"] ["also bad"; "7=x"] "Helsinki").
  - repeat constructor.
  - reflexivity.
Defined.

(** ** The bodies and parameters the operations build *)

(** X18: [add_profile_to_list] sends one kind of contact only.  With an
    email address the body carries it and neither mobile key, even when a
    mobile number and a prefix were given as well; without one, and with
    both mobile values, it carries these two and no email key.  The
    [data_fields] entry is a list in either case, empty when none were
    given. *)
Theorem add_profile_sends_one_contact (self : MarketingPlatformClient) (listid : Z)
    (email_address mobile_number mobile_prefix : option string)
    (data_fields : option (list value))
    (confirmed mobile_confirmed add_to_autoresponders : bool) (w : world) :
  listid <> 0 ->
  opt_str_truthy email_address
  || (opt_str_truthy mobile_number && opt_str_truthy mobile_prefix) = true ->
  exists payload,
    add_profile_to_list self listid email_address mobile_number mobile_prefix data_fields
      confirmed mobile_confirmed add_to_autoresponders w
    = request self "POST" "/Profiles" None (Some payload) w
    /\ dict_get "listid" payload = Some (VInt listid)
    /\ dict_get "data_fields" payload
       = Some (VList (match data_fields with Some l => l | None => [] end))
    /\ (if opt_str_truthy email_address
        then dict_get "email_address" payload = Some (opt_str_value email_address)
             /\ dict_get "mobile_number" payload = None
             /\ dict_get "mobile_prefix" payload = None
        else dict_get "email_address" payload = None
             /\ dict_get "mobile_number" payload = Some (opt_str_value mobile_number)
             /\ dict_get "mobile_prefix" payload = Some (opt_str_value mobile_prefix)).
Proof.
  intros Hl Hcontact. unfold add_profile_to_list.
  apply Z.eqb_neq in Hl. rewrite Hl.
  destruct (opt_str_truthy email_address) eqn:He.
  - cbn [negb andb]. eexists. split; [reflexivity|].
    split; [reflexivity|]. split; [destruct data_fields as [[|x xs]|]; reflexivity|].
    repeat split; reflexivity.
  - cbn [orb] in Hcontact. rewrite Hcontact. cbn [negb andb]. eexists.
    split; [reflexivity|].
    split; [reflexivity|]. split; [destruct data_fields as [[|x xs]|]; reflexivity|].
    repeat split; reflexivity.
Qed.

Lemma add_profile_sends_one_contact_witness :
  exists payload,
    add_profile_to_list demo_client 5 (Some "jane@example.net") (Some "5550100")
      (Some "45") None true true false answer_once
    = request demo_client "POST" "/Profiles" None (Some payload) answer_once
    /\ dict_get "listid" payload = Some (VInt 5)
    /\ dict_get "data_fields" payload = Some (VList [])
    /\ dict_get "email_address" payload = Some (VStr "jane@example.net")
    /\ dict_get "mobile_number" payload = None
    /\ dict_get "mobile_prefix" payload = None.
Proof.
  apply (add_profile_sends_one_contact demo_client 5 (Some "jane@example.net")
           (Some "5550100") (Some "45") None true true false answer_once).
  - lia.
  - reflexivity.
Defined.

(** X19: [update_data_field] wants a field id or a name and nothing else:
    it raises [ValueError] and sends nothing exactly when the id is [None]
    and the name is missing or empty.  An id is sent as it is, the id 0
    included, the test being against [None]; the name is sent only when it
    is not empty. *)
Theorem update_data_field_needs_id_or_name (self : MarketingPlatformClient)
    (fieldid : option Z) (name default_value : option string) (settings : value)
    (w : world) :
  (fieldid = None -> opt_str_truthy name = false ->
   update_data_field self fieldid name default_value settings w
   = (Raise (ValueError "Provide fieldid or name"), w))
  /\ (fieldid <> None \/ opt_str_truthy name = true ->
      exists payload,
        update_data_field self fieldid name default_value settings w
        = request self "PUT" "/DataFields" None (Some payload) w
        /\ dict_get "fieldid" payload
           = match fieldid with Some f => Some (VInt f) | None => None end
        /\ dict_get "name" payload
           = (if opt_str_truthy name then Some (opt_str_value name) else None)).
Proof.
  split.
  - intros -> Hn. unfold update_data_field. rewrite Hn. reflexivity.
  - intros Hgiven. unfold update_data_field.
    assert (Hgo : (match fieldid with None => true | Some _ => false end
                   && negb (opt_str_truthy name)) = false).
    { destruct Hgiven as [Hf|Hn]; [destruct fieldid; [reflexivity | contradiction]|].
      rewrite Hn. apply andb_false_r. }
    rewrite Hgo. eexists. split; [reflexivity|].
    destruct fieldid, (opt_str_truthy name), default_value, (is_none settings);
      split; reflexivity.
Qed.

Lemma update_data_field_needs_id_or_name_witness :
  update_data_field demo_client None (Some "") (Some "x") VNone answer_once
  = (Raise (ValueError "Provide fieldid or name"), answer_once)
  /\ exists payload,
       update_data_field demo_client (Some 0) None None VNone answer_once
       = request demo_client "PUT" "/DataFields" None (Some payload) answer_once
       /\ dict_get "fieldid" payload = Some (VInt 0)
       /\ dict_get "name" payload = None.
Proof.
  split.
  - apply (proj1 (update_data_field_needs_id_or_name demo_client None (Some "")
                    (Some "x") VNone answer_once)); reflexivity.
  - apply (proj2 (update_data_field_needs_id_or_name demo_client (Some 0) None None
                    VNone answer_once)).
    left. discriminate.
Defined.

(** X20: every request of [get_profiles_sms_unsubscribed] carries a limit
    between 1 and 1000 and a comparison type in lower case: with a list id,
    a date, a type that is on, before or after in any mix of cases and a
    positive limit, the operation goes to the request executor with the
    limit unchanged up to 1000 (1000 beyond) and the type lower-cased. *)
Theorem sms_unsubscribed_request_parameters (self : MarketingPlatformClient) (listid : Z)
    (date : value) (type : string) (limit offset : Z) (w : world) :
  listid <> 0 ->
  date_missing date = false ->
  mem (lower type) sms_types = true ->
  0 < limit ->
  get_profiles_sms_unsubscribed self listid date type limit offset w
  = request self "GET" "/Profiles/GetProfilesSMSUnsubscribed"
      (Some [("listid", VInt listid); ("date", date); ("type", VStr (lower type));
             ("limit", VInt (Z.min limit 1000)); ("offset", VInt offset)]) None w
  /\ 1 <= Z.min limit 1000 <= 1000
  /\ In (lower type) ["on"; "before"; "after"].
Proof.
  intros Hl Hdate Hty Hlim. unfold get_profiles_sms_unsubscribed.
  apply Z.eqb_neq in Hl. rewrite Hl, Hdate. unfold mem in Hty. rewrite Hty.
  cbn [negb].
  assert (H1 : (limit <=? 0) = false) by (apply Z.leb_gt; lia). rewrite H1.
  split; [|split; [lia|]].
  - destruct (limit >? 1000) eqn:E.
    + apply Z.gtb_lt in E. rewrite Z.min_r by lia. reflexivity.
    + rewrite Z.gtb_ltb in E. apply Z.ltb_ge in E. rewrite Z.min_l by lia. reflexivity.
  - unfold sms_types in Hty. apply existsb_exists in Hty.
    destruct Hty as (x & Hin & Hx). apply String.eqb_eq in Hx. rewrite Hx. exact Hin.
Qed.

Lemma sms_unsubscribed_request_parameters_witness :
  get_profiles_sms_unsubscribed demo_client 5 (VInt 1717200000) "Before" 250 10
    answer_once
  = request demo_client "GET" "/Profiles/GetProfilesSMSUnsubscribed"
      (Some [("listid", VInt 5); ("date", VInt 1717200000); ("type", VStr (lower "Before"));
             ("limit", VInt (Z.min 250 1000)); ("offset", VInt 10)]) None answer_once
  /\ 1 <= Z.min 250 1000 <= 1000
  /\ In (lower "Before") ["on"; "before"; "after"].
Proof.
  apply (sms_unsubscribed_request_parameters demo_client 5 (VInt 1717200000) "Before"
           250 10 answer_once).
  - lia.
  - reflexivity.
  - reflexivity.
  - lia.
Defined.

(** ** Whole commands *)

(** [main] up to the dispatch: the parser's output, [debug] bound, the
    client built. *)
Lemma main_start (p : process) (fuel : nat) (w : world) (outs : list output) (a : args) :
  parse_args p (sys_argv_tail p) = (outs, Ok a) ->
  opt_str_truthy (environ p "MP_API_USERNAME") = true ->
  opt_str_truthy (environ p "MP_API_TOKEN") = true ->
  main p None fuel w
  = match dispatch p fuel (main_client p) (cmd a)
            (mk_world (Some (args_debug a)) (transport w)
               (trace w ++ map Printed outs)) with
    | None => None
    | Some (Raise e, w2) => Some (Raise e, w2)
    | Some (Ok out, w2) => Some (print (LineJson "" out false) w2)
    end.
Proof.
  intros Hparse Hu Ht. unfold main. rewrite Hparse.
  unfold bind, set_debug, init_client. rewrite Hu, Ht. reflexivity.
Qed.

(** X21: the command [lists] prints all pages as one array.  With the
    credentials present and the listing answered by full pages of [limit]
    items closed by a shorter one, [main] sends one request per page and
    then prints a single JSON value, the array of the items of all pages in
    order; the script ends with status 0. *)
Theorem main_lists_prints_all_pages (p : process) (fuel : nat) (w : world)
    (outs : list output) (a : args) (listid limit : Z)
    (full : list (list value)) (last : list value) :
  parse_args p (sys_argv_tail p) = (outs, Ok a) ->
  cmd a = Lists listid limit ->
  opt_str_truthy (environ p "MP_API_USERNAME") = true ->
  opt_str_truthy (environ p "MP_API_TOKEN") = true ->
  Forall (fun pg => Z.of_nat (List.length pg) = limit) full ->
  Z.of_nat (List.length last) < limit ->
  (forall k pg, nth_error (full ++ [last])%list k = Some pg ->
     exists r,
       transport w (List.length (requests w) + k)%nat
         (lists_request (main_client p) listid limit (Z.of_nat k * limit)) = Responded r
       /\ page_response r pg) ->
  (List.length full < fuel)%nat ->
  script p fuel w
  = Some (mk_world (Some (args_debug a)) (transport w)
            (trace w ++ map Printed outs
             ++ flat_map
                  (fun k =>
                     (map Printed
                        (debug_lines (args_debug a)
                           (lists_request (main_client p) listid limit
                              (Z.of_nat k * limit)))
                      ++ [Sent (lists_request (main_client p) listid limit
                                  (Z.of_nat k * limit))])%list)
                  (seq 0 (S (List.length full)))
             ++ [Printed (LineJson "" (VList (List.concat (full ++ [last])%list)) false)]),
          0).
Proof.
  intros Hparse Hcmd Hu Ht Hfull Hlast Hpages Hfuel.
  unfold script. rewrite (main_start p fuel w outs a Hparse Hu Ht), Hcmd.
  cbn [dispatch]. unfold list_iter_lists, iter_lists.
  rewrite (iter_lists_from_pages (main_client p) listid limit (args_debug a) last Hlast
             full 0
             (mk_world (Some (args_debug a)) (transport w) (trace w ++ map Printed outs))
             fuel eq_refl Hfull).
  - unfold print, record. cbn [snd fst debug transport trace].
    rewrite <- !app_assoc. reflexivity.
  - intros k pg Hk. destruct (Hpages k pg Hk) as (r & Hr & Hpr).
    exists r. split; [|exact Hpr].
    change (transport (mk_world (Some (args_debug a)) (transport w)
                         (trace w ++ map Printed outs))) with (transport w).
    unfold requests at 1. cbn [trace].
    rewrite sent_in_app, sent_in_printed, app_nil_r. exact Hr.
  - exact Hfuel.
Qed.

Lemma main_lists_prints_all_pages_witness :
  script (demo_process (mk_args false (Lists 0 2)) (Some "alice") (Some "s3cret")) 2
    (boot_world (scripted [Responded page_one; Responded page_two]))
  = Some (mk_world (Some false) (scripted [Responded page_one; Responded page_two])
            [Sent (lists_request demo_client 0 2 0);
             Sent (lists_request demo_client 0 2 2);
             Printed (LineJson ""
                        (VList [VDict [("id", VInt 1)]; VDict [("id", VInt 2)];
                                VDict [("id", VInt 3)]]) false)],
          0).
Proof.
  apply (main_lists_prints_all_pages
           (demo_process (mk_args false (Lists 0 2)) (Some "alice") (Some "s3cret")) 2
           (boot_world (scripted [Responded page_one; Responded page_two])) []
           (mk_args false (Lists 0 2)) 0 2 [page_one_items] page_two_items).
  - reflexivity.
  - reflexivity.
  - reflexivity.
  - reflexivity.
  - repeat constructor.
  - simpl; lia.
  - intros k pg Hk. destruct k as [|[|k]].
    + injection Hk as <-. exists page_one. split; [reflexivity|].
      split; [simpl; lia|]. eexists; split; reflexivity.
    + injection Hk as <-. exists page_two. split; [reflexivity|].
      split; [simpl; lia|]. eexists; split; reflexivity.
    + destruct k; discriminate Hk.
  - simpl; lia.
Defined.

Lemma raise_sends_nothing (e : exn) : sends_at_most_five (raise e).
Proof.
  intros w. exists O, (request_of demo_client "" "" None None).
  split; [lia|]. cbn. rewrite app_nil_r. reflexivity.
Qed.

Lemma request_sends_at_most_five (self : MarketingPlatformClient) (method path : string)
    (params json_body : option dict) :
  sends_at_most_five (request self method path params json_body).
Proof.
  intros w. destruct (debug w) as [d|] eqn:Hd.
  - destruct (request_sends self method path params json_body w d Hd) as (k & Hk & Hq).
    exists k, (request_of self method path params json_body). split; [lia | exact Hq].
  - exists O, (request_of self method path params json_body). split; [lia|].
    unfold request, _request, bind, read_debug. rewrite Hd. cbn.
    rewrite app_nil_r. reflexivity.
Qed.

(** Settles [sends_at_most_five] for an operation that is a cascade of tests
    ending in [raise] or [request]. *)
Ltac cascade :=
  repeat match goal with
         | |- context [if ?b then _ else _] => destruct b
         | |- context [match ?x with _ => _ end] => destruct x
         end;
  first [apply raise_sends_nothing | apply request_sends_at_most_five].

Lemma operations_send_at_most_five (self : MarketingPlatformClient) :
  (forall fields, sends_at_most_five (create_list self fields))
  /\ (forall statid, sends_at_most_five (get_opens self statid))
  /\ (forall statid c u, sends_at_most_five (get_clicks self statid c u))
  /\ (forall l c st sd ed lim off,
         sends_at_most_five (get_unsubscribes_by_list self l c st sd ed lim off))
  /\ (forall n, sends_at_most_five (send_newsletter self n))
  /\ (forall n l ts, sends_at_most_five (schedule_send_newsletter_to_list self n l ts))
  /\ (forall l e m x fs c mc au,
         sends_at_most_five (add_profile_to_list self l e m x fs c mc au))
  /\ (forall i fs, sends_at_most_five (update_profile self i fs))
  /\ (forall l lim off, sends_at_most_five (get_profiles_by_list self l lim off))
  /\ (forall sg lim off, sends_at_most_five (get_profiles_from_segment self sg lim off))
  /\ (forall sg l lim off, sends_at_most_five (get_segments self sg l lim off))
  /\ (forall n r c, sends_at_most_five (create_segment self n r c))
  /\ (forall sg n r c, sends_at_most_five (edit_segment self sg n r c))
  /\ (forall sg, sends_at_most_five (delete_segment self sg))
  /\ (forall f ll lim off, sends_at_most_five (load_data_fields self f ll lim off))
  /\ (forall n ft dv st, sends_at_most_five (create_data_field self n ft dv st))
  /\ (forall f n dv st, sends_at_most_five (update_data_field self f n dv st))
  /\ (forall f, sends_at_most_five (delete_data_field self f))
  /\ (forall l fs, sends_at_most_five (lists_add_data_fields self l fs))
  /\ (forall l fs, sends_at_most_five (lists_remove_data_fields self l fs))
  /\ (forall l ft lim off, sends_at_most_five (lists_get_data_fields self l ft lim off))
  /\ (forall pi l e m x,
         sends_at_most_five (profiles_load_profile_data_fields self pi l e m x))
  /\ (forall l c st sd ed lim off,
         sends_at_most_five (get_unsubscribed_profiles self l c st sd ed lim off))
  /\ (forall l dt ty lim off,
         sends_at_most_five (get_profiles_sms_unsubscribed self l dt ty lim off)).
Proof.
  repeat split; intros.
  - unfold create_list; cascade.
  - unfold get_opens; cascade.
  - unfold get_clicks; cascade.
  - unfold get_unsubscribes_by_list; cascade.
  - unfold send_newsletter; cascade.
  - unfold schedule_send_newsletter_to_list; cascade.
  - unfold add_profile_to_list; cascade.
  - unfold update_profile; cascade.
  - unfold get_profiles_by_list; cascade.
  - unfold get_profiles_from_segment; cascade.
  - unfold get_segments; cascade.
  - unfold create_segment; cascade.
  - unfold edit_segment; cascade.
  - unfold delete_segment; cascade.
  - unfold load_data_fields; cascade.
  - unfold create_data_field; cascade.
  - unfold update_data_field; cascade.
  - unfold delete_data_field; cascade.
  - unfold lists_add_data_fields; cascade.
  - unfold lists_remove_data_fields; cascade.
  - unfold lists_get_data_fields; cascade.
  - unfold profiles_load_profile_data_fields; cascade.
  - unfold get_unsubscribed_profiles; cascade.
  - unfold get_profiles_sms_unsubscribed; cascade.
Qed.

Lemma bounded_run (c : M value) (w : world) :
  sends_at_most_five c ->
  exists res w' k rq,
    Some (c w) = Some (res, w')
    /\ (k <= 5)%nat /\ requests w' = (requests w ++ repeat rq k)%list.
Proof.
  intros H. destruct (H w) as (k & rq & Hk & Hq).
  destruct (c w) as [res w'] eqn:E. exists res, w', k, rq.
  split; [reflexivity|]. split; [exact Hk | exact Hq].
Qed.

Lemma bounded_after_result {A} (r : result A) (f : A -> M value) :
  (forall a, sends_at_most_five (f a)) ->
  sends_at_most_five (x <- of_result r ;; f x).
Proof.
  intros H w. unfold bind, of_result. destruct r as [a|e]; [apply H|].
  exists O, (request_of demo_client "" "" None None).
  split; [lia|]. cbn. rewrite app_nil_r. reflexivity.
Qed.

(** X22: every command but [lists] is one call of the request executor at
    most: whatever the arguments and whatever the remote end answers, its
    dispatch ends, needs no fuel, and has sent one and the same request
    between zero and five times. *)
Theorem command_sends_at_most_five_requests (p : process) (fuel : nat)
    (client : MarketingPlatformClient) (c : command) (w : world) :
  (forall listid limit, c <> Lists listid limit) ->
  exists res w' k rq,
    dispatch p fuel client c w = Some (res, w')
    /\ (k <= 5)%nat
    /\ requests w' = (requests w ++ repeat rq k)%list.
Proof.
  intros Hc.
  destruct (operations_send_at_most_five client)
    as (Hcreate & Hopens & Hclicks & Hunsubs & Hsend & Hsched & Hadd & Hupd & Hbylist
        & Hfromseg & Hsegs & Hsegnew & Hsegedit & Hsegdel & Hload & Hdfnew & Hdfupd
        & Hdfdel & Hlinkadd & Hlinkdel & Hlinkget & Hpfields & Hunsubprofs & Hsms).
  destruct c; cbn [dispatch].
  - exfalso. exact (Hc listid limit eq_refl).
  - apply bounded_run. apply Hcreate.
  - apply bounded_run. apply Hopens.
  - apply bounded_run. apply Hclicks.
  - apply bounded_run. apply Hsend.
  - apply bounded_run. apply Hsched.
  - apply bounded_run. apply bounded_after_result. intros fs. apply Hadd.
  - apply bounded_run. apply bounded_after_result. intros fs. apply Hupd.
  - apply bounded_run. apply Hbylist.
  - apply bounded_run. apply Hfromseg.
  - apply bounded_run. apply Hsegs.
  - apply bounded_run. apply bounded_after_result. intros rules. apply Hsegnew.
  - apply bounded_run. apply bounded_after_result. intros rules. apply Hsegedit.
  - apply bounded_run. apply Hsegdel.
  - apply bounded_run. apply Hload.
  - apply bounded_run. apply bounded_after_result. intros settings. apply Hdfnew.
  - apply bounded_run. apply bounded_after_result. intros settings. apply Hdfupd.
  - apply bounded_run. apply Hdfdel.
  - apply bounded_run. apply Hlinkadd.
  - apply bounded_run. apply Hlinkdel.
  - apply bounded_run. apply Hlinkget.
  - apply bounded_run. apply Hpfields.
  - apply bounded_run. apply Hunsubs.
  - apply bounded_run. apply Hunsubprofs.
  - apply bounded_run. apply Hsms.
Qed.

Lemma command_sends_at_most_five_requests_witness :
  exists res w' k rq,
    dispatch (demo_process (mk_args false (DfDelete 3)) (Some "alice") (Some "s3cret")) 0
      demo_client (PfUpdate 9 (Some ["2=Jane"])) (start_world (always too_many_requests))
    = Some (res, w')
    /\ (k <= 5)%nat
    /\ requests w'
       = (requests (start_world (always too_many_requests)) ++ repeat rq k)%list.
Proof.
  apply (command_sends_at_most_five_requests
           (demo_process (mk_args false (DfDelete 3)) (Some "alice") (Some "s3cret")) 0
           demo_client (PfUpdate 9 (Some ["2=Jane"]))
           (start_world (always too_many_requests))).
  intros listid limit. discriminate.
Defined.


Lemma drop_none_values (kvs : list (string * option string)) :
  Forall (fun kv => exists s, snd kv = VStr s) (drop_none kvs).
Proof.
  induction kvs as [|[k [v|]] kvs IH]; cbn [drop_none]; [constructor | | exact IH].
  constructor; [exists v; reflexivity | exact IH].
Qed.

Lemma dict_get_drop_none_other (k k' : string) (o : option string)
    (kvs : list (string * option string)) :
  (k' =? k)%string = false ->
  dict_get k (drop_none ((k', o) :: kvs)) = dict_get k (drop_none kvs).
Proof.
  intros Hk. destruct o as [v|]; cbn [drop_none dict_get]; [rewrite Hk|]; reflexivity.
Qed.

Lemma dict_get_drop_none_same (k : string) (o : option string)
    (kvs : list (string * option string)) :
  dict_get k (drop_none ((k, o) :: kvs))
  = match o with
    | Some v => Some (VStr v)
    | None => dict_get k (drop_none kvs)
    end.
Proof.
  destruct o as [v|]; cbn [drop_none dict_get]; [rewrite String.eqb_refl|]; reflexivity.
Qed.

(** Looks a key up in the body of [create-list]. *)
Ltac lookup_option :=
  repeat (rewrite dict_get_drop_none_other by reflexivity);
  rewrite dict_get_drop_none_same;
  match goal with
  | |- match ?o with _ => _ end = _ => destruct o; [reflexivity|]
  | _ => idtac
  end;
  repeat (rewrite dict_get_drop_none_other by reflexivity);
  reflexivity.

(** X23: the body of [create-list] holds the name and the description and,
    of the eight further options, those that were given, each under its own
    key with the string that was given; an option that was not given is left
    out of the body and not sent as a null. *)
Theorem create_list_sends_given_options_only (p : process) (fuel : nat)
    (client : MarketingPlatformClient) (name description : string)
    (sender_name sender_email reply_email company_name company_email
       company_address company_phone company_domain : option string) (w : world) :
  exists body,
    dispatch p fuel client
      (CreateList name description sender_name sender_email reply_email company_name
         company_email company_address company_phone company_domain) w
    = Some (request client "POST" "/Lists" None (Some body) w)
    /\ Forall (fun kv => exists s, snd kv = VStr s) body
    /\ dict_get "name" body = Some (VStr name)
    /\ dict_get "description" body = Some (VStr description)
    /\ dict_get "sender_name" body = option_map VStr sender_name
    /\ dict_get "sender_email" body = option_map VStr sender_email
    /\ dict_get "reply_email" body = option_map VStr reply_email
    /\ dict_get "company_name" body = option_map VStr company_name
    /\ dict_get "company_email" body = option_map VStr company_email
    /\ dict_get "company_address" body = option_map VStr company_address
    /\ dict_get "company_phone" body = option_map VStr company_phone
    /\ dict_get "company_domain" body = option_map VStr company_domain.
Proof.
  exists (drop_none [("name", Some name); ("description", Some description);
                     ("sender_name", sender_name); ("sender_email", sender_email);
                     ("reply_email", reply_email); ("company_name", company_name);
                     ("company_email", company_email);
                     ("company_address", company_address);
                     ("company_phone", company_phone);
                     ("company_domain", company_domain)]).
  split; [reflexivity|].
  split; [apply drop_none_values|].
  repeat apply conj; lookup_option.
Qed.
